(** * Facebook webhook tracker: a shallow embedding of [SaveWebhookResponse]

    The tracker receives webhook deliveries of a Facebook page (messenger
    events and feed events) and folds them into conversations, messages and
    customers.  The embedding follows the TypeScript source function by
    function.  Asynchronous methods become computations in a state and error
    monad [M]: the state holds the collections of the persistence layer, the
    notifications sent, the requests made to the Graph API and the mutable
    [currentPageId] field of the class instance; a thrown exception becomes
    [Err], and the state reached when it was thrown is kept.

    Conventions.  Document ids ([_id]) are natural numbers handed out by the
    counter [nextId]; ids of Facebook objects are strings.  Each collection
    is a list with the most recently created document first.  Optional
    fields are [option]s, [None] standing for [undefined].  The models of
    [db/models], the constants of [data/constants] and the helpers of
    [facebookTracker] are not among the sources; what the tracker needs of
    them is modelled from the specification, or left to the [World]. *)

From Stdlib Require Import String Ascii List Bool Arith ZArith Lia.
Import ListNotations.
Local Open Scope string_scope.
Local Open Scope list_scope.

Set Implicit Arguments.

(** ** JavaScript values *)

(** An optional string field: [None] is [undefined]. *)
Definition ostring := option string.

(** Truthiness of an optional string: [undefined] and [''] are falsy. *)
Definition truthy (s : ostring) : bool :=
  match s with
  | None => false
  | Some s => negb (String.eqb s "")
  end.

(** [a || b] on optional strings. *)
Definition orElse (a b : ostring) : ostring := if truthy a then a else b.

(** [a || 'literal'], whose value is always a string. *)
Definition orDefault (a : ostring) (d : string) : string :=
  match a with
  | Some s => if String.eqb s "" then d else s
  | None => d
  end.

(** Rendering inside a template string: [`${x}`]. *)
Definition template (s : ostring) (null : string) : string :=
  match s with Some s => s | None => null end.

Definition ostring_eqb (a b : ostring) : bool :=
  match a, b with
  | None, None => true
  | Some x, Some y => String.eqb x y
  | _, _ => false
  end.

(** [xs.includes(x)] on an array of strings. *)
Definition includes (xs : list string) (x : string) : bool :=
  existsb (String.eqb x) xs.

(** ** Payload shapes *)

(** [IFbUser]. *)
Record FbUser := mkFbUser {
  fb_id : string;
  fb_name : ostring;
}.

(** The loosely typed objects the tracker reads fields from: webhook change
    values ([IPostParams], [ICommentParams], [IReactionParams] are views of
    the same object) and Graph API responses.  Every field is optional;
    [parent] holds [parent.id], and [comments] holds
    [comments.summary.total_count]. *)
Record FbObject := mkFbObject {
  id : ostring;
  parent : ostring;
  from : option FbUser;
  message : ostring;
  attachment : ostring;
  created_time : ostring;
  comments : option nat;
  post_id : ostring;
  parent_id : ostring;
  item : ostring;
  comment_id : ostring;
  video : ostring;
  photo : ostring;
  verb : ostring;
  video_id : ostring;
  link : ostring;
  photo_id : ostring;
  photos : option (list string);
  reaction_type : ostring;
  access_token : ostring;
  first_name : ostring;
  last_name : ostring;
  name : ostring;
  image : ostring;
  location : ostring;
}.

Definition emptyObject : FbObject :=
  mkFbObject None None None None None None None None None None None None None
             None None None None None None None None None None None None.

(** [{ ...o, item: i, post_id: p }] as written in [restoreParentPost]. *)
Definition withItemPost (o : FbObject) (i : ostring) (p : ostring) : FbObject :=
  mkFbObject (id o) (parent o) (from o) (message o) (attachment o)
             (created_time o) (comments o) p (parent_id o) i (comment_id o)
             (video o) (photo o) (verb o) (video_id o) (link o) (photo_id o)
             (photos o) (reaction_type o) (access_token o) (first_name o)
             (last_name o) (name o) (image o) (location o).

(** [{ ...o, item: i }] as written in [createMessageFromComments]. *)
Definition withItem (o : FbObject) (i : ostring) : FbObject :=
  withItemPost o i (post_id o).

(** One element of [entry.messaging]. *)
Record Attachment := mkAttachment {
  att_type : ostring;
  att_payload : option ostring;   (* [payload.url] when a payload is there *)
}.

Record MessengerMessage := mkMessengerMessage {
  mid : string;
  text : ostring;
  attachments : option (list Attachment);
}.

Record MessagingEvent := mkMessagingEvent {
  sender : FbUser;
  recipient : string;             (* [recipient.id] *)
  ev_message : option MessengerMessage;
}.

(** One element of [data.entry]; [changes] lists the [value] of each change. *)
Record Entry := mkEntry {
  entry_id : string;
  messaging : option (list MessagingEvent);
  changes : option (list FbObject);
}.

Record WebhookData := mkWebhookData {
  object : string;
  entry : list Entry;
}.

(** ** Documents of the persistence layer *)

Inductive Status := NEW | OPEN | CLOSED.
Inductive Kind := MESSENGER | FEED.

Definition Status_eqb (a b : Status) : bool :=
  match a, b with
  | NEW, NEW | OPEN, OPEN | CLOSED, CLOSED => true
  | _, _ => false
  end.

Definition Kind_eqb (a b : Kind) : bool :=
  match a, b with
  | MESSENGER, MESSENGER | FEED, FEED => true
  | _, _ => false
  end.

(** [IFacebook] of a conversation. *)
Record ConvFacebook := mkConvFacebook {
  cf_kind : Kind;
  cf_senderId : ostring;
  cf_senderName : ostring;
  cf_recipientId : ostring;
  cf_postId : ostring;
  cf_pageId : ostring;
}.

Record Conversation := mkConversation {
  c_id : nat;
  c_integrationId : string;
  c_customerId : nat;
  c_status : Status;
  c_content : ostring;
  c_messageCount : nat;
  c_facebookData : option ConvFacebook;
}.

(** [IFacebook] of a message ([IMsgFacebook]). *)
Record MsgFacebook := mkMsgFacebook {
  postId : ostring;
  fbitem : ostring;
  commentId : ostring;
  parentId : ostring;
  isPost : bool;
  fbphoto : ostring;
  fbvideo : ostring;
  fblink : ostring;
  createdTime : ostring;
  fbphotos : option (list string);
  senderId : ostring;
  senderName : ostring;
  messageId : ostring;
  commentCount : option nat;
  likeCount : option Z;
  reactions : list (string * list (option FbUser));
}.

Definition emptyMsgFacebook : MsgFacebook :=
  mkMsgFacebook None None None None false None None None None None None None
                None None None [].

Record Message := mkMessage {
  m_id : nat;
  m_conversationId : nat;
  m_customerId : nat;
  m_content : ostring;
  m_attachments : list (ostring * ostring);
  m_facebookData : MsgFacebook;
  m_internal : bool;
}.

Record Customer := mkCustomer {
  cu_id : nat;
  cu_firstName : ostring;
  cu_lastName : string;
  cu_integrationId : string;
  cu_avatar : string;
  cu_facebookId : string;
}.

Record FacebookIntegration := mkFacebookIntegration {
  pageIds : list string;
  accountId : string;
}.

Record Integration := mkIntegration {
  i_id : string;
  i_facebookData : option FacebookIntegration;
}.

Inductive ActivityLog :=
| ConversationLog (conversation customer : nat)
| CustomerRegistrationLog (customer : nat).

(** What [publishClientMessage] and [publishMessage] send out. *)
Inductive Notification :=
| ClientMessage (message : nat)
| SubscriptionMessage (message customer : nat).

(** ** The Graph API *)

(** A response of [graphRequest.get]: an object, or a bare string such as
    ['Error processing https request']. *)
Inductive Response :=
| RString (s : string)
| RObject (o : FbObject).

(** Reading fields of a response; a string has none of them. *)
Definition fields (r : Response) : FbObject :=
  match r with
  | RString _ => emptyObject
  | RObject o => o
  end.

(** [response === 'Error processing https request']. *)
Definition isRequestError (r : Response) : bool :=
  match r with
  | RString s => String.eqb s "Error processing https request"
  | RObject _ => false
  end.

Inductive Request :=
| GraphGet (path : ostring) (token : option Response)
| GetPostInfo (post : ostring) (token : ostring)
| GetCommentInfo (comment : ostring) (token : ostring)
| GetComments (comment : ostring) (token : ostring).

Inductive result (A : Type) :=
| Ok (a : A)
| Err (msg : string).
Arguments Err {A} msg.

(** The outside world: what the Graph API answers to the [n]-th request of
    the run.  [Err] is a rejected request.  [getPostInfo], [getCommentInfo]
    and [getComments] are the helpers of [facebookTracker]; [getComments]
    answers with the [data] array. *)
Record World := mkWorld {
  graph_get : nat -> ostring -> option Response -> result Response;
  getPostInfo : nat -> ostring -> ostring -> result FbObject;
  getCommentInfo : nat -> ostring -> ostring -> result FbObject;
  getComments : nat -> ostring -> ostring -> result (list FbObject);
}.

(** ** State and the monad of asynchronous methods *)

Record State := mkState {
  conversations : list Conversation;   (* most recently created first *)
  messages : list Message;             (* most recently created first *)
  customers : list Customer;
  activityLogs : list ActivityLog;
  published : list Notification;
  requests : list Request;             (* most recent first *)
  nextId : nat;
  currentPageId : ostring;
}.

Definition M (A : Type) : Type := State -> State * result A.

Definition ret {A} (a : A) : M A := fun st => (st, Ok a).

Definition throw {A} (msg : string) : M A := fun st => (st, Err msg).

Definition bind {A B} (m : M A) (k : A -> M B) : M B :=
  fun st =>
    match m st with
    | (st', Ok a) => k a st'
    | (st', Err e) => (st', Err e)
    end.

Notation "x <- m ;; k" := (bind m (fun x => k))
  (at level 61, m at next level, right associativity).
Notation "m ;;; k" := (bind m (fun _ => k))
  (at level 61, right associativity).

Definition gets {A} (f : State -> A) : M A := fun st => (st, Ok (f st)).

Definition modify (f : State -> State) : M unit := fun st => (f st, Ok tt).

(** What a method without a useful value returns. *)
Inductive Void := Null | Undefined.

(** ** Field updates of the state *)

Definition set_conversations (f : list Conversation -> list Conversation)
  (st : State) : State :=
  mkState (f (conversations st)) (messages st) (customers st)
          (activityLogs st) (published st) (requests st) (nextId st)
          (currentPageId st).

Definition set_messages (f : list Message -> list Message) (st : State) : State :=
  mkState (conversations st) (f (messages st)) (customers st)
          (activityLogs st) (published st) (requests st) (nextId st)
          (currentPageId st).

Definition set_customers (f : list Customer -> list Customer) (st : State) : State :=
  mkState (conversations st) (messages st) (f (customers st))
          (activityLogs st) (published st) (requests st) (nextId st)
          (currentPageId st).

Definition add_activityLog (l : ActivityLog) (st : State) : State :=
  mkState (conversations st) (messages st) (customers st)
          (l :: activityLogs st) (published st) (requests st) (nextId st)
          (currentPageId st).

Definition add_published (n : Notification) (st : State) : State :=
  mkState (conversations st) (messages st) (customers st)
          (activityLogs st) (n :: published st) (requests st) (nextId st)
          (currentPageId st).

Definition add_request (r : Request) (st : State) : State :=
  mkState (conversations st) (messages st) (customers st)
          (activityLogs st) (published st) (r :: requests st) (nextId st)
          (currentPageId st).

Definition bump_nextId (st : State) : State :=
  mkState (conversations st) (messages st) (customers st)
          (activityLogs st) (published st) (requests st) (S (nextId st))
          (currentPageId st).

Definition set_currentPageId (p : ostring) (st : State) : State :=
  mkState (conversations st) (messages st) (customers st)
          (activityLogs st) (published st) (requests st) (nextId st) p.

(** ** The persistence layer *)

(** A query on messages: each field is a condition on the field of the same
    name ([None]: no condition).  [{}] puts no condition at all. *)
Record MsgSelector := mkMsgSelector {
  sel_conversationId : option nat;
  sel_isPost : option bool;
  sel_postId : option string;
  sel_commentId : option string;
  sel_messageId : option string;
}.

Definition emptySelector : MsgSelector :=
  mkMsgSelector None None None None None.

Definition holds {A} (cond : option A) (test : A -> bool) : bool :=
  match cond with
  | None => true
  | Some v => test v
  end.

Definition matchMessage (sel : MsgSelector) (m : Message) : bool :=
  holds (sel_conversationId sel) (fun c => Nat.eqb (m_conversationId m) c)
  && holds (sel_isPost sel) (fun b => Bool.eqb (isPost (m_facebookData m)) b)
  && holds (sel_postId sel)
       (fun p => ostring_eqb (postId (m_facebookData m)) (Some p))
  && holds (sel_commentId sel)
       (fun c => ostring_eqb (commentId (m_facebookData m)) (Some c))
  && holds (sel_messageId sel)
       (fun i => ostring_eqb (messageId (m_facebookData m)) (Some i)).

(** A query on conversations, as [getOrCreateConversationByMessenger] writes
    it: the kind, and an [$or] of sender/recipient pairs. *)
Record ConvSelector := mkConvSelector {
  sel_kind : Kind;
  sel_or : list (string * string);   (* (senderId, recipientId) *)
}.

Definition matchConversation (sel : ConvSelector) (c : Conversation) : bool :=
  match c_facebookData c with
  | None => false
  | Some fd =>
      Kind_eqb (cf_kind fd) (sel_kind sel)
      && existsb (fun sr =>
                    ostring_eqb (cf_senderId fd) (Some (fst sr))
                    && ostring_eqb (cf_recipientId fd) (Some (snd sr)))
                 (sel_or sel)
  end.

(** Modelled from the spec: the models of [db/models] are not part of the
    sources at hand.  [ConversationMessages.findOne(selector)]. *)
Definition ConversationMessages_findOne (sel : MsgSelector) : M (option Message) :=
  gets (fun st => find (matchMessage sel) (messages st)).

(** Modelled from the spec: [Conversations.findOne(selector).sort({createdAt:
    -1})], the most recently created conversation that matches. *)
Definition Conversations_findOne (sel : ConvSelector) : M (option Conversation) :=
  gets (fun st => find (matchConversation sel) (conversations st)).

(** Modelled from the spec: [Customers.findOne({'facebookData.id': id})]. *)
Definition Customers_findOne (fbUserId : string) : M (option Customer) :=
  gets (fun st => find (fun c => String.eqb (cu_facebookId c) fbUserId)
                       (customers st)).

(** Modelled from the spec: [Conversations.createConversation(doc)] stores a
    conversation under a fresh id, with no message yet. *)
Definition Conversations_createConversation (integrationId : string)
  (customerId : nat) (status : Status) (content : ostring)
  (facebookData : ConvFacebook) : M Conversation :=
  fun st =>
    let c := mkConversation (nextId st) integrationId customerId status
                            content 0 (Some facebookData) in
    (bump_nextId (set_conversations (cons c) st), Ok c).

Definition reopened (c : Conversation) : Conversation :=
  mkConversation (c_id c) (c_integrationId c) (c_customerId c) OPEN
                 (c_content c) (c_messageCount c) (c_facebookData c).

(** Modelled from the spec: [Conversations.reopen(_id)] is a status
    transition of the conversation with that id, which it returns. *)
Definition Conversations_reopen (cid : nat) : M Conversation :=
  fun st =>
    match find (fun c => Nat.eqb (c_id c) cid) (conversations st) with
    | None => (st, Err "Conversation not found")
    | Some c =>
        (set_conversations
           (map (fun c' => if Nat.eqb (c_id c') cid then reopened c' else c'))
           st,
         Ok (reopened c))
    end.

Definition with_content (content : ostring) (c : Conversation) : Conversation :=
  mkConversation (c_id c) (c_integrationId c) (c_customerId c) (c_status c)
                 content (c_messageCount c) (c_facebookData c).

(** Modelled from the spec: [Conversations.updateOne({_id}, {$set:
    {content}})]. *)
Definition Conversations_setContent (cid : nat) (content : ostring) : M unit :=
  modify (set_conversations
            (map (fun c => if Nat.eqb (c_id c) cid
                           then with_content content c else c))).

Definition counted (c : Conversation) : Conversation :=
  mkConversation (c_id c) (c_integrationId c) (c_customerId c) (c_status c)
                 (c_content c) (S (c_messageCount c)) (c_facebookData c).

(** Modelled from the spec: [ConversationMessages.createMessage(doc)] stores
    the message under a fresh id and counts it on its conversation. *)
Definition ConversationMessages_createMessage (conversationId customerId : nat)
  (content : ostring) (atts : list (ostring * ostring))
  (facebookData : MsgFacebook) (internal : bool) : M Message :=
  fun st =>
    let m := mkMessage (nextId st) conversationId customerId content atts
                       facebookData internal in
    (bump_nextId
       (set_conversations
          (map (fun c => if Nat.eqb (c_id c) conversationId
                         then counted c else c))
          (set_messages (cons m) st)),
     Ok m).

(** Modelled from the spec: [Customers.createCustomer(doc)]. *)
Definition Customers_createCustomer (firstName : ostring) (lastName : string)
  (integrationId : string) (avatar : string) (fbUserId : string) : M Customer :=
  fun st =>
    let c := mkCustomer (nextId st) firstName lastName integrationId avatar
                        fbUserId in
    (bump_nextId (set_customers (cons c) st), Ok c).

Definition ActivityLogs_createConversationLog (c : Conversation)
  (customer : Customer) : M unit :=
  modify (add_activityLog (ConversationLog (c_id c) (cu_id customer))).

Definition ActivityLogs_createCustomerRegistrationLog (customer : Customer)
  : M unit :=
  modify (add_activityLog (CustomerRegistrationLog (cu_id customer))).

Definition publishClientMessage (m : Message) : M unit :=
  modify (add_published (ClientMessage (m_id m))).

Definition publishMessage (m : Message) (customerId : nat) : M unit :=
  modify (add_published (SubscriptionMessage (m_id m) customerId)).

(** Modelled from the spec: [ConversationMessages.updateMany(selector,
    update)] patches the [facebookData] of every message that matches. *)
Definition with_facebookData (f : MsgFacebook -> MsgFacebook) (m : Message)
  : Message :=
  mkMessage (m_id m) (m_conversationId m) (m_customerId m) (m_content m)
            (m_attachments m) (f (m_facebookData m)) (m_internal m).

Definition ConversationMessages_updateMany (sel : MsgSelector)
  (f : MsgFacebook -> MsgFacebook) : M unit :=
  modify (set_messages
            (map (fun m => if matchMessage sel m
                           then with_facebookData f m else m))).

(** [$inc: {'facebookData.likeCount': count}]; a missing counter counts
    from zero. *)
Definition inc_likeCount (count : Z) (fd : MsgFacebook) : MsgFacebook :=
  mkMsgFacebook (postId fd) (fbitem fd) (commentId fd) (parentId fd)
    (isPost fd) (fbphoto fd) (fbvideo fd) (fblink fd) (createdTime fd)
    (fbphotos fd) (senderId fd) (senderName fd) (messageId fd)
    (commentCount fd)
    (Some (match likeCount fd with Some n => n + count | None => count end)%Z)
    (reactions fd).

Definition with_reactions (r : list (string * list (option FbUser)))
  (fd : MsgFacebook) : MsgFacebook :=
  mkMsgFacebook (postId fd) (fbitem fd) (commentId fd) (parentId fd)
    (isPost fd) (fbphoto fd) (fbvideo fd) (fblink fd) (createdTime fd)
    (fbphotos fd) (senderId fd) (senderName fd) (messageId fd)
    (commentCount fd) (likeCount fd) r.

(** The array stored at [facebookData.reactions.<reactionType>]; [None] is
    an element that was pushed as [undefined]. *)
Fixpoint reactionsOf (reactionType : string)
  (r : list (string * list (option FbUser))) : list (option FbUser) :=
  match r with
  | [] => []
  | (k, us) :: r' =>
      if String.eqb k reactionType then us else reactionsOf reactionType r'
  end.

(** [$push: {'facebookData.reactions.<reactionType>': from}]: appends to the
    array, which is created when missing. *)
Fixpoint push_reaction (reactionType : string) (u : option FbUser)
  (r : list (string * list (option FbUser)))
  : list (string * list (option FbUser)) :=
  match r with
  | [] => [(reactionType, [u])]
  | (k, us) :: r' =>
      if String.eqb k reactionType then (k, us ++ [u]) :: r'
      else (k, us) :: push_reaction reactionType u r'
  end.

(** [{id}] as a condition on an element of the array: an element that is
    not a user has no [id] and does not match. *)
Definition hasId (uid : string) (u : option FbUser) : bool :=
  match u with
  | Some u => String.eqb (fb_id u) uid
  | None => false
  end.

(** [$pull: {'facebookData.reactions.<reactionType>': {id}}]: removes every
    element of the array whose [id] is the given one. *)
Fixpoint pull_reaction (reactionType : string) (uid : string)
  (r : list (string * list (option FbUser)))
  : list (string * list (option FbUser)) :=
  match r with
  | [] => []
  | (k, us) :: r' =>
      if String.eqb k reactionType
      then (k, filter (fun u => negb (hasId uid u)) us) :: r'
      else (k, us) :: pull_reaction reactionType uid r'
  end.

(** How many stored messages a selector matches. *)
Definition countMessages (sel : MsgSelector) (st : State) : nat :=
  length (filter (matchMessage sel) (messages st)).

(** [{ 'facebookData.messageId': i }]. *)
Definition messageIdSelector (i : string) : MsgSelector :=
  mkMsgSelector None None None None (Some i).

(** The selectors of the backfill: the root post of a conversation under a
    post id, and a comment of a conversation. *)
Definition rootPostSelector (conversationId : nat) (post : string)
  : MsgSelector :=
  mkMsgSelector (Some conversationId) (Some true) (Some post) None None.

Definition commentOfSelector (conversationId : nat) (comment : string)
  : MsgSelector :=
  mkMsgSelector (Some conversationId) None None (Some comment) None.

(** ** Pure helpers of the tracker *)

(** Modelled from the spec: [FACEBOOK_POST_TYPES] of [data/constants], the
    post taxonomy (status, photo, video, link). *)
Definition FACEBOOK_POST_TYPES : list string :=
  ["status"; "photo"; "video"; "link"].

Definition isPostType (i : ostring) : bool :=
  match i with
  | Some i => includes FACEBOOK_POST_TYPES i
  | None => false
  end.

(** Assignments to a field of the document under construction. *)
Definition with_parentId (v : ostring) (fd : MsgFacebook) : MsgFacebook :=
  mkMsgFacebook (postId fd) (fbitem fd) (commentId fd) v (isPost fd)
    (fbphoto fd) (fbvideo fd) (fblink fd) (createdTime fd) (fbphotos fd)
    (senderId fd) (senderName fd) (messageId fd) (commentCount fd)
    (likeCount fd) (reactions fd).

Definition with_photo (v : ostring) (fd : MsgFacebook) : MsgFacebook :=
  mkMsgFacebook (postId fd) (fbitem fd) (commentId fd) (parentId fd)
    (isPost fd) v (fbvideo fd) (fblink fd) (createdTime fd) (fbphotos fd)
    (senderId fd) (senderName fd) (messageId fd) (commentCount fd)
    (likeCount fd) (reactions fd).

Definition with_video (v : ostring) (fd : MsgFacebook) : MsgFacebook :=
  mkMsgFacebook (postId fd) (fbitem fd) (commentId fd) (parentId fd)
    (isPost fd) (fbphoto fd) v (fblink fd) (createdTime fd) (fbphotos fd)
    (senderId fd) (senderName fd) (messageId fd) (commentCount fd)
    (likeCount fd) (reactions fd).

Definition with_link (v : ostring) (fd : MsgFacebook) : MsgFacebook :=
  mkMsgFacebook (postId fd) (fbitem fd) (commentId fd) (parentId fd)
    (isPost fd) (fbphoto fd) (fbvideo fd) v (createdTime fd) (fbphotos fd)
    (senderId fd) (senderName fd) (messageId fd) (commentCount fd)
    (likeCount fd) (reactions fd).

Definition with_createdTime (v : ostring) (fd : MsgFacebook) : MsgFacebook :=
  mkMsgFacebook (postId fd) (fbitem fd) (commentId fd) (parentId fd)
    (isPost fd) (fbphoto fd) (fbvideo fd) (fblink fd) v (fbphotos fd)
    (senderId fd) (senderName fd) (messageId fd) (commentCount fd)
    (likeCount fd) (reactions fd).

Definition with_photos (v : option (list string)) (fd : MsgFacebook)
  : MsgFacebook :=
  mkMsgFacebook (postId fd) (fbitem fd) (commentId fd) (parentId fd)
    (isPost fd) (fbphoto fd) (fbvideo fd) (fblink fd) (createdTime fd) v
    (senderId fd) (senderName fd) (messageId fd) (commentCount fd)
    (likeCount fd) (reactions fd).

(** [generatePostParams]. *)
Definition generatePostParams (postParams : FbObject) : MsgFacebook :=
  let doc :=
    mkMsgFacebook (post_id postParams) (item postParams) None None true
                  None None None None None None None None None None [] in
  let doc :=
    if truthy (link postParams) then
      if truthy (video_id postParams)
      then with_video (link postParams) doc
      else if truthy (photo_id postParams)
      then with_photo (link postParams) doc
      else with_link (link postParams) doc
    else doc in
  let doc :=
    if truthy (created_time postParams)
    then with_createdTime (created_time postParams) doc
    else doc in
  let doc :=
    match photos postParams with
    | Some ps => with_photos (Some ps) doc
    | None => doc
    end in
  doc.

(** [generateCommentParams]. *)
Definition generateCommentParams (commentParams : FbObject) : MsgFacebook :=
  let doc :=
    mkMsgFacebook (post_id commentParams) (item commentParams)
                  (if truthy (id commentParams) then id commentParams
                   else comment_id commentParams)
                  None false None None None None None None None None None
                  None [] in
  let doc :=
    match parent commentParams with
    | Some parentId => with_parentId (Some parentId) doc
    | None => doc
    end in
  let doc :=
    if negb (ostring_eqb (post_id commentParams) (parent_id commentParams))
    then with_parentId (parent_id commentParams) doc
    else doc in
  let doc :=
    if truthy (photo commentParams)
    then with_photo (photo commentParams) doc
    else doc in
  let doc :=
    if truthy (video commentParams)
    then with_video (video commentParams) doc
    else doc in
  let doc :=
    if truthy (created_time commentParams)
    then with_createdTime (created_time commentParams) doc
    else doc in
  doc.

Definition pick {A} (over base : option A) : option A :=
  match over with
  | Some _ => over
  | None => base
  end.

(** [{ ...base, ...over }] on message data: the fields [over] carries win. *)
Definition spread (base over : MsgFacebook) : MsgFacebook :=
  mkMsgFacebook
    (pick (postId over) (postId base))
    (pick (fbitem over) (fbitem base))
    (pick (commentId over) (commentId base))
    (pick (parentId over) (parentId base))
    (isPost over || isPost base)
    (pick (fbphoto over) (fbphoto base))
    (pick (fbvideo over) (fbvideo base))
    (pick (fblink over) (fblink base))
    (pick (createdTime over) (createdTime base))
    (pick (fbphotos over) (fbphotos base))
    (pick (senderId over) (senderId base))
    (pick (senderName over) (senderName base))
    (pick (messageId over) (messageId base))
    (pick (commentCount over) (commentCount base))
    (pick (likeCount over) (likeCount base))
    (match reactions over with [] => reactions base | r => r end).

(** [{ senderId, senderName }]. *)
Definition senderData (sid : string) (sname : ostring) : MsgFacebook :=
  mkMsgFacebook None None None None false None None None None None
                (Some sid) sname None None None [].

(** [{ senderId, senderName, commentCount }]. *)
Definition postSenderData (sid : string) (sname : ostring) (n : nat)
  : MsgFacebook :=
  mkMsgFacebook None None None None false None None None None None
                (Some sid) sname None (Some n) None [].

(** [{ messageId }]. *)
Definition messageIdData (i : string) : MsgFacebook :=
  mkMsgFacebook None None None None false None None None None None
                None None (Some i) None None [].

(** [{ 'facebookData.postId': p }] and [{ 'facebookData.commentId': c }]. *)
Definition postSelector (p : string) : MsgSelector :=
  mkMsgSelector None None (Some p) None None.

Definition commentSelector (c : string) : MsgSelector :=
  mkMsgSelector None None None (Some c) None.

(** The selector [handleReactions] builds: the [post_id] branch first, the
    [comment_id] branch after it. *)
Definition reactionSelector (reactionParams : FbObject) : MsgSelector :=
  let selector := emptySelector in
  let selector :=
    match post_id reactionParams with
    | Some p => if truthy (Some p) then postSelector p else selector
    | None => selector
    end in
  match comment_id reactionParams with
  | Some c => if truthy (Some c) then commentSelector c else selector
  | None => selector
  end.

(** [IGetOrCreateConversationParams]. *)
Record Params := mkParams {
  findSelector : option ConvSelector;
  status : Status;
  p_senderId : string;
  facebookData : ConvFacebook;     (* [pageId] is filled in at creation *)
  content : string;
  p_attachments : list (ostring * ostring);
  msgFacebookData : MsgFacebook;
}.

Definition with_pageId (fd : ConvFacebook) (p : ostring) : ConvFacebook :=
  mkConvFacebook (cf_kind fd) (cf_senderId fd) (cf_senderName fd)
                 (cf_recipientId fd) (cf_postId fd) p.

(** The [findSelector] of a messenger event. *)
Definition messengerSelector (senderId recipientId : string) : ConvSelector :=
  mkConvSelector MESSENGER
    [(senderId, recipientId); (recipientId, senderId)].

(** The parameters [getOrCreateConversationByMessenger] passes on. *)
Definition messengerParams (event : MessagingEvent) (msg : MessengerMessage)
  : Params :=
  let senderId := fb_id (sender event) in
  let senderName := fb_name (sender event) in
  let recipientId := recipient event in
  mkParams
    (Some (messengerSelector senderId recipientId))
    NEW
    senderId
    (mkConvFacebook MESSENGER (Some senderId) senderName (Some recipientId)
                    None None)
    (orDefault (text msg) "...")
    (map (fun a => (att_type a,
                    match att_payload a with
                    | Some url => url
                    | None => Some ""
                    end))
         (match attachments msg with Some l => l | None => [] end))
    (messageIdData (mid msg)).

(** ** The tracker *)

Section SaveWebhookResponse.

(** The Graph API, and the fields the constructor stores. *)
Variable W : World.
Variable userAccessToken : string.
Variable integration : Integration.

(** [graphRequest.get(path, token)]. *)
Definition graphRequest_get (path : ostring) (token : option Response)
  : M Response :=
  fun st =>
    (add_request (GraphGet path token) st,
     graph_get W (length (requests st)) path token).

Definition request_getPostInfo (post : ostring) (token : ostring)
  : M FbObject :=
  fun st =>
    (add_request (GetPostInfo post token) st,
     getPostInfo W (length (requests st)) post token).

Definition request_getCommentInfo (comment : ostring) (token : ostring)
  : M FbObject :=
  fun st =>
    (add_request (GetCommentInfo comment token) st,
     getCommentInfo W (length (requests st)) comment token).

Definition request_getComments (comment : ostring) (token : ostring)
  : M (list FbObject) :=
  fun st =>
    (add_request (GetComments comment token) st,
     getComments W (length (requests st)) comment token).

(** [getPageAccessToken]. *)
Definition getPageAccessToken : M Response :=
  pageId <- gets currentPageId ;;
  graphRequest_get
    (Some (String.append (template pageId "null") "/?fields=access_token"))
    (Some (RString userAccessToken)).

(** The local [getProfilePic] of [getOrCreateCustomer]: a failed request
    is caught and gives [null]. *)
Definition getProfilePic (fbId : string) : M ostring :=
  fun st =>
    match graphRequest_get
            (Some (String.append "/"
                     (String.append fbId "/picture?height=600")))
            None st with
    | (st', Ok response) =>
        (st', Ok (if truthy (image (fields response))
                  then location (fields response)
                  else Some ""))
    | (st', Err _) => (st', Ok None)
    end.

(** [getOrCreateCustomer]. *)
Definition getOrCreateCustomer (fbUserId : string) (integrationId : string)
  (token : Response) : M Customer :=
  customer <- Customers_findOne fbUserId ;;
  match customer with
  | Some customer => ret customer
  | None =>
      res <- graphRequest_get (Some (String.append "/" fbUserId))
                              (Some token) ;;
      let firstName := orElse (first_name (fields res)) (name (fields res)) in
      let lastName := orDefault (last_name (fields res)) "" in
      pic <- getProfilePic fbUserId ;;
      createdCustomer <-
        Customers_createCustomer firstName lastName integrationId
                                 (orDefault pic "") fbUserId ;;
      ActivityLogs_createCustomerRegistrationLog createdCustomer ;;;
      ret createdCustomer
  end.

(** [createMessage].  The conversation is a value here, so the guard
    [!conversation] has nothing to reject. *)
Definition createMessage (conversation : Conversation) (userId : string)
  (content : ostring) (atts : list (ostring * ostring))
  (facebookData : MsgFacebook) : M nat :=
  token <- getPageAccessToken ;;
  customer <- getOrCreateCustomer userId (i_id integration) token ;;
  message <-
    ConversationMessages_createMessage (c_id conversation) (cu_id customer)
      content atts facebookData false ;;
  Conversations_setContent (c_id conversation) content ;;;
  publishClientMessage message ;;;
  publishMessage message (c_customerId conversation) ;;;
  ret (m_id message).

(** [createMessageFromComments]. *)
Fixpoint createMessageFromComments (conversation : Conversation)
  (userId : string) (comments : list FbObject) : M Void :=
  match comments with
  | [] => ret Undefined
  | comment :: rest =>
      match id comment with
      | Some cid =>
          if truthy (Some cid) then
            prevMessage <-
              ConversationMessages_findOne
                (commentOfSelector (c_id conversation) cid) ;;
            match prevMessage with
            | Some _ => createMessageFromComments conversation userId rest
            | None =>
                let params :=
                  generateCommentParams (withItem comment (Some "comment")) in
                match from comment with
                | None => throw "TypeError: comment.from is undefined"
                | Some sender =>
                    createMessage conversation userId
                      (orElse (message comment) (attachment comment)) []
                      (spread (senderData (fb_id sender) (fb_name sender))
                              params) ;;;
                    createMessageFromComments conversation userId rest
                end
            end
          else ret Undefined
      | None => ret Undefined
      end
  end.

(** [restoreParentPost]. *)
Definition restoreParentPost (conversation : Conversation) (userId : string)
  (facebookData : MsgFacebook) : M bool :=
  match postId facebookData with
  | None => ret false
  | Some post =>
      if negb (truthy (Some post)) then ret false
      else if negb (ostring_eqb (fbitem facebookData) (Some "comment"))
      then ret false
      else
        parentPost <-
          ConversationMessages_findOne
            (rootPostSelector (c_id conversation) post) ;;
        match parentPost with
        | Some _ => ret false
        | None =>
            accessTokenResponse <- getPageAccessToken ;;
            let accessToken := access_token (fields accessTokenResponse) in
            postResponse <- request_getPostInfo (Some post) accessToken ;;
            let postParams :=
              generatePostParams
                (withItemPost postResponse (Some "status")
                              (id postResponse)) in
            match from postResponse with
            | None => throw "TypeError: postResponse.from is undefined"
            | Some author =>
                createMessage conversation userId
                  (Some (orDefault (message postResponse) "..."))
                  []
                  (spread
                     (postSenderData (fb_id author) (fb_name author)
                        (match comments postResponse with
                         | Some total_count => total_count
                         | None => 0
                         end))
                     postParams) ;;;
                commentResponse <-
                  request_getCommentInfo (commentId facebookData)
                                         accessToken ;;
                match parent commentResponse with
                | Some parentCommentId =>
                    parentCommentResponse <-
                      request_getCommentInfo (Some parentCommentId)
                                             accessToken ;;
                    parentCommentComments <-
                      request_getComments (id parentCommentResponse)
                                          accessToken ;;
                    createMessageFromComments conversation userId
                      (parentCommentComments ++ [parentCommentResponse]) ;;;
                    ret true
                | None => ret true
                end
            end
        end
  end.

(** The first branch of [getOrCreateConversation]: a customer for the
    sender, then a conversation on the current page and its log. *)
Definition newConversation (params : Params) : M Conversation :=
  token <- getPageAccessToken ;;
  customer <-
    getOrCreateCustomer (p_senderId params) (i_id integration) token ;;
  pageId <- gets currentPageId ;;
  if negb (truthy pageId)
  then throw "getOrCreateConversation: Couldn't set current page id"
  else
    conversation <-
      Conversations_createConversation (i_id integration) (cu_id customer)
        (status params) (Some (content params))
        (with_pageId (facebookData params) pageId) ;;
    ActivityLogs_createConversationLog conversation customer ;;;
    ret conversation.

(** [conversation.messageCount && (conversation.messageCount > 1 &&
    conversation.status === CLOSED)]. *)
Definition closedWithHistory (c : Conversation) : bool :=
  Nat.ltb 0 (c_messageCount c)
  && (Nat.ltb 1 (c_messageCount c) && Status_eqb (c_status c) CLOSED).

(** [getOrCreateConversation]. *)
Definition getOrCreateConversation (params : Params) : M nat :=
  found <-
    match findSelector params with
    | Some sel => Conversations_findOne sel
    | None => ret None
    end ;;
  conversation <-
    match found with
    | None => newConversation params
    | Some c =>
        if closedWithHistory c then newConversation params
        else Conversations_reopen (c_id c)
    end ;;
  restoreParentPost conversation (p_senderId params)
                    (msgFacebookData params) ;;;
  createMessage conversation (p_senderId params) (Some (content params))
                (p_attachments params) (msgFacebookData params).

(** [updateLikeCount]. *)
Definition updateLikeCount (type : ostring) (selector : MsgSelector)
  : M unit :=
  let count := if ostring_eqb type (Some "add") then 1%Z else (-1)%Z in
  ConversationMessages_updateMany selector (inc_likeCount count).

(** [updateReactions].  [from] is pushed as it comes, also when it is
    [undefined]; only the [$pull] reads [from.id], which is a TypeError on a
    missing [from]. *)
Definition updateReactions (type : ostring) (selector : MsgSelector)
  (reactionType : string) (from : option FbUser) : M unit :=
  if ostring_eqb type (Some "add")
  then
    ConversationMessages_updateMany selector
      (fun fd => with_reactions
                   (push_reaction reactionType from (reactions fd)) fd)
  else
    match from with
    | None => throw "TypeError: from is undefined"
    | Some actor =>
        ConversationMessages_updateMany selector
          (fun fd => with_reactions
                       (pull_reaction reactionType (fb_id actor)
                                      (reactions fd))
                       fd)
    end.

(** [handleReactions]. *)
Definition handleReactions (reactionParams : FbObject) : M Void :=
  let selector := reactionSelector reactionParams in
  (if ostring_eqb (item reactionParams) (Some "like")
   then updateLikeCount (verb reactionParams) selector
   else ret tt) ;;;
  (if ostring_eqb (item reactionParams) (Some "reaction")
   then
     updateReactions (verb reactionParams) selector
       (orDefault (reaction_type reactionParams) "like")
       (from reactionParams)
   else ret tt) ;;;
  ret Undefined.

(** [getOrCreateConversationByMessenger]. *)
Definition getOrCreateConversationByMessenger (event : MessagingEvent)
  : M Void :=
  match ev_message event with
  | None => throw "TypeError: event.message is undefined"
  | Some msg =>
      saved <-
        ConversationMessages_findOne (messageIdSelector (mid msg)) ;;
      match saved with
      | Some _ => ret Null
      | None =>
          getOrCreateConversation (messengerParams event msg) ;;;
          ret Undefined
      end
  end.

(** [getOrCreateConversationByFeed]. *)
Definition getOrCreateConversationByFeed (value : FbObject) : M Void :=
  match i_facebookData integration with
  | None =>
      throw "getOrCreateConversationByFeed: Integration doesnt have facebookData"
  | Some integrationData =>
      if negb (ostring_eqb (verb value) (Some "add")) then ret Null
      else
        let isComment :=
          ostring_eqb (item value) (Some "comment")
          && truthy (comment_id value) in
        conversationMessage <-
          (if isComment
           then ConversationMessages_findOne
                  (mkMsgSelector None None None (comment_id value) None)
           else ret None) ;;
        match conversationMessage with
        | Some _ => ret Null
        | None =>
            let msgFacebookData :=
              if isComment then generateCommentParams value
              else emptyMsgFacebook in
            let msgFacebookData :=
              if isPostType (item value) then generatePostParams value
              else msgFacebookData in
            if ostring_eqb (item value) (Some "like")
               || ostring_eqb (item value) (Some "reaction")
            then handleReactions value
            else
              match from value with
              | None => throw "TypeError: value.from is undefined"
              | Some author =>
                  let senderName := fb_name author in
                  let senderId := fb_id author in
                  let messageText := orDefault (message value) "..." in
                  response <- getPageAccessToken ;;
                  if isRequestError response
                  then throw "getOrCreateConversationByFeed: Couldn't get Page access token"
                  else
                      response <-
                        graphRequest_get (post_id value)
                          (option_map RString
                             (access_token (fields response))) ;;
                      let postId := id (fields response) in
                      let status :=
                        if includes (pageIds integrationData) senderId
                        then CLOSED else NEW in
                      getOrCreateConversation
                        (mkParams None status senderId
                           (mkConvFacebook FEED (Some senderId) senderName
                                           None postId None)
                           messageText []
                           (spread (senderData senderId senderName)
                                   msgFacebookData)) ;;;
                      ret Undefined
              end
        end
  end.

(** [viaMessengerEvent], on [entry.messaging]. *)
Fixpoint viaMessengerEvent (messaging : list MessagingEvent) : M unit :=
  match messaging with
  | [] => ret tt
  | messagingEvent :: rest =>
      match ev_message messagingEvent with
      | Some _ => getOrCreateConversationByMessenger messagingEvent ;;; ret tt
      | None => ret tt
      end ;;;
      viaMessengerEvent rest
  end.

(** [viaFeedEvent], on [entry.changes]. *)
Fixpoint viaFeedEvent (changes : list FbObject) : M unit :=
  match changes with
  | [] => ret tt
  | value :: rest =>
      getOrCreateConversationByFeed value ;;;
      viaFeedEvent rest
  end.

(** The loop of [start] over [data.entry]. *)
Fixpoint startEntries (integrationData : FacebookIntegration)
  (entries : list Entry) : M Void :=
  match entries with
  | [] => ret Undefined
  | entry :: rest =>
      if negb (includes (pageIds integrationData) (entry_id entry))
      then ret Null
      else
        modify (set_currentPageId (Some (entry_id entry))) ;;;
        match messaging entry with
        | Some events => viaMessengerEvent events
        | None => ret tt
        end ;;;
        match changes entry with
        | Some values => viaFeedEvent values
        | None => ret tt
        end ;;;
        startEntries integrationData rest
  end.

(** [start]. *)
Definition start (data : WebhookData) : M Void :=
  match i_facebookData integration with
  | None => throw "start: Integration doesn't have facebookData"
  | Some integrationData =>
      if String.eqb (object data) "page"
      then startEntries integrationData (entry data)
      else ret Undefined
  end.

End SaveWebhookResponse.

(** ** Replies, comment import and the webhook receiver *)

(** [IFacebookReply]; [reply_attachment] holds [attachment.url] when an
    attachment is given. *)
Record FacebookReply := mkFacebookReply {
  reply_text : ostring;
  reply_attachment : option ostring;
  reply_commentId : ostring;
}.

(** An account: the user access token it stores. *)
Record Account := mkAccount {
  account_token : string;
}.

(** The [message] of a messenger reply: [{}], [{ text }] or
    [{ attachment: { type: 'file', payload: { url } } }]. *)
Inductive MessengerPayload :=
| EmptyMessage
| TextMessage (text : string)
| FileMessage (url : ostring).

(** The body of a [graphRequest.post]: [{ recipient: { id }, message }] to
    the messenger, or [{ message?, attachment_url? }] to a comment thread. *)
Inductive PostBody :=
| MessengerBody (recipientId : ostring) (payload : MessengerPayload)
| CommentBody (text : ostring) (attachment_url : option ostring).

(** What [graphRequest.post] answers: [message_id] and [id]. *)
Record PostResponse := mkPostResponse {
  message_id : ostring;
  posted_id : ostring;
}.

Record Post := mkPost {
  post_path : string;
  post_token : ostring;
  post_body : PostBody;
}.

(** The state of a reply: the state of the tracker and the posts made to
    the Graph API, most recent first. *)
Record ReplyState := mkReplyState {
  store : State;
  posts : list Post;
}.

Definition MR (A : Type) : Type := ReplyState -> ReplyState * result A.

Definition retR {A} (a : A) : MR A := fun rs => (rs, Ok a).

Definition throwR {A} (msg : string) : MR A := fun rs => (rs, Err msg).

Definition bindR {A B} (m : MR A) (k : A -> MR B) : MR B :=
  fun rs =>
    match m rs with
    | (rs', Ok a) => k a rs'
    | (rs', Err e) => (rs', Err e)
    end.

(** A computation of the tracker, run on the store of a reply. *)
Definition liftR {A} (m : M A) : MR A :=
  fun rs =>
    match m (store rs) with
    | (st', r) => (mkReplyState st' (posts rs), r)
    end.

Notation "x <<- m ;; k" := (bindR m (fun x => k))
  (at level 61, m at next level, right associativity).
Notation "m ;;;; k" := (bindR m (fun _ => k))
  (at level 61, right associativity).

(** [$set: {'facebookData.messageId': i}]. *)
Definition with_messageId (i : ostring) (fd : MsgFacebook) : MsgFacebook :=
  mkMsgFacebook (postId fd) (fbitem fd) (commentId fd) (parentId fd)
    (isPost fd) (fbphoto fd) (fbvideo fd) (fblink fd) (createdTime fd)
    (fbphotos fd) (senderId fd) (senderName fd) i (commentCount fd)
    (likeCount fd) (reactions fd).

(** [$inc: {'facebookData.commentCount': 1}]; a missing counter counts
    from zero. *)
Definition inc_commentCount (fd : MsgFacebook) : MsgFacebook :=
  mkMsgFacebook (postId fd) (fbitem fd) (commentId fd) (parentId fd)
    (isPost fd) (fbphoto fd) (fbvideo fd) (fblink fd) (createdTime fd)
    (fbphotos fd) (senderId fd) (senderName fd) (messageId fd)
    (Some (match commentCount fd with Some n => S n | None => 1 end))
    (likeCount fd) (reactions fd).

(** Modelled from the spec: [ConversationMessages.updateOne({_id}, update)]
    patches the [facebookData] of the message with that id. *)
Definition ConversationMessages_updateOne (mid : nat)
  (f : MsgFacebook -> MsgFacebook) : M unit :=
  modify (set_messages
            (map (fun m => if Nat.eqb (m_id m) mid
                           then with_facebookData f m else m))).

(** [{ 'facebookData.isPost': true, conversationId }]. *)
Definition postsOfSelector (conversationId : nat) : MsgSelector :=
  mkMsgSelector (Some conversationId) (Some true) None None None.

(** The [facebookData] a feed reply is given: [{ commentId: res.id }], then
    [parentId] and [link] when the reply has a comment id and an
    attachment. *)
Definition replyFacebookData (msg : FacebookReply) (res : PostResponse)
  : MsgFacebook :=
  let facebookData :=
    mkMsgFacebook None None (posted_id res) None false None None None None
                  None None None None None None [] in
  let facebookData :=
    if truthy (reply_commentId msg)
    then with_parentId (reply_commentId msg) facebookData
    else facebookData in
  let facebookData :=
    match reply_attachment msg with
    | Some url => with_link url facebookData
    | None => facebookData
    end in
  facebookData.

(** The [message] of a messenger reply: the text, and the attachment over
    it. *)
Definition messengerPayload (msg : FacebookReply) : MessengerPayload :=
  let message := EmptyMessage in
  let message :=
    match reply_text msg with
    | Some text => if truthy (Some text) then TextMessage text else message
    | None => message
    end in
  match reply_attachment msg with
  | Some url => FileMessage url
  | None => message
  end.

Section Outbound.

Variable W : World.

(** [graphRequest.post]: what the Graph API answers to a post, the [n]-th
    request of the run. *)
Variable graph_post : nat -> string -> ostring -> PostBody -> result PostResponse.

(** [fetchComments] of [facebookTracker]: the comments of a post. *)
Variable fetchComments :
  nat -> ostring -> Response -> option nat -> result (list FbObject).

(** [Integrations.findOne({_id})] and [Accounts.findOne({_id})]: the two
    collections are only read. *)
Variable Integrations_findOne : string -> option Integration.
Variable Accounts_findOne : string -> option Account.

Definition graphRequest_post (path : string) (token : ostring)
  (body : PostBody) : MR PostResponse :=
  fun rs =>
    (mkReplyState (store rs) (mkPost path token body :: posts rs),
     graph_post (length (requests (store rs)) + length (posts rs)) path token
                body).

(** [facebookReply]. *)
Definition facebookReply (conversation : Conversation) (msg : FacebookReply)
  (message : Message) : MR unit :=
  match Integrations_findOne (c_integrationId conversation) with
  | None => throwR "facebookReply: Integration not found"
  | Some integration =>
      match i_facebookData integration with
      | None => throwR "facebookReply: Integration not found"
      | Some integrationData =>
          match c_facebookData conversation with
          | None =>
              throwR "facebookReply: Conversation doesn't have facebookData"
          | Some facebookData =>
              match Accounts_findOne (accountId integrationData) with
              | None => throwR "facebookReply: Account not found"
              | Some account =>
                  response <<-
                    liftR (graphRequest_get W
                             (Some (String.append
                                      (template (cf_pageId facebookData)
                                                "undefined")
                                      "/?fields=access_token"))
                             (Some (RString (account_token account)))) ;;
                  let pageToken := access_token (fields response) in
                  match cf_kind facebookData with
                  | MESSENGER =>
                      res <<-
                        graphRequest_post "me/messages" pageToken
                          (MessengerBody (cf_senderId facebookData)
                                         (messengerPayload msg)) ;;
                      liftR (ConversationMessages_updateOne (m_id message)
                               (with_messageId (message_id res)))
                  | FEED =>
                      let id := cf_postId facebookData in
                      let id :=
                        if truthy (reply_commentId msg)
                        then reply_commentId msg else id in
                      res <<-
                        graphRequest_post
                          (String.append (template id "undefined") "/comments")
                          pageToken
                          (CommentBody
                             (if truthy (reply_text msg)
                              then reply_text msg else None)
                             (reply_attachment msg)) ;;
                      liftR (ConversationMessages_updateOne (m_id message)
                               (fun _ => replyFacebookData msg res)) ;;;;
                      liftR (ConversationMessages_updateMany
                               (postsOfSelector (m_conversationId message))
                               inc_commentCount)
                  end
              end
          end
      end
  end.

(** [getPostComments]: the messages it stores; it returns its arguments.
    The fetch itself is not entered in the request log. *)
Fixpoint storeComments (token : Response) (conversation : Conversation)
  (comments : list FbObject) : M unit :=
  match comments with
  | [] => ret tt
  | comment :: rest =>
      match from comment with
      | None => throw "TypeError: comment.from is undefined"
      | Some author =>
          customer <-
            getOrCreateCustomer W (fb_id author)
                                (c_integrationId conversation) token ;;
          ConversationMessages_createMessage (c_id conversation)
            (cu_id customer) (Some (orDefault (message comment) "..."))
            [] (generateCommentParams comment) false ;;;
          storeComments token conversation rest
      end
  end.

Definition getPostComments (post : ostring) (token : Response)
  (limit : option nat) (conversation : Conversation) : M unit :=
  fun st =>
    match fetchComments (length (requests st)) post token limit with
    | Err e => (st, Err e)
    | Ok comments => storeComments token conversation comments st
    end.

(** [receiveWebhookResponse], on the integrations its query returns; each
    one gets a tracker of its own, whose page context starts as [null]. *)
Fixpoint receiveWebhookResponse (integrations : list Integration)
  (data : WebhookData) : M unit :=
  match integrations with
  | [] => ret tt
  | integration :: rest =>
      match i_facebookData integration with
      | None => throw "Could not find integrations facebookData"
      | Some facebookData =>
          match Accounts_findOne (accountId facebookData) with
          | None => throw "Could not find account"
          | Some account =>
              modify (set_currentPageId None) ;;;
              start W (account_token account) integration data ;;;
              receiveWebhookResponse rest data
          end
      end
  end.

End Outbound.

(** ** The reconnection delay of the pub/sub client *)


(** ** What the specification says, in its own words *)

(** The [parentId] as the specification words it: the explicit parent's id
    when there is a parent object, and otherwise [parent_id] when [post_id]
    differs from it. *)
Definition specParentId (commentParams : FbObject) : ostring :=
  match parent commentParams with
  | Some p => Some p
  | None =>
      if negb (ostring_eqb (post_id commentParams) (parent_id commentParams))
      then parent_id commentParams
      else None
  end.

(** Splitting a combined name at its first space. *)
Fixpoint splitName (n : string) : string * string :=
  match n with
  | EmptyString => (EmptyString, EmptyString)
  | String c rest =>
      if Ascii.eqb c " "%char then (EmptyString, rest)
      else let (f, l) := splitName rest in (String c f, l)
  end.

(** The names of a new customer as the specification words them:
    [first_name]/[last_name] when given, else the two halves of [name]. *)
Definition specNames (res : FbObject) : ostring * string :=
  if truthy (first_name res)
  then (first_name res, orDefault (last_name res) "")
  else
    match name res with
    | Some n => (Some (fst (splitName n)), snd (splitName n))
    | None => (None, orDefault (last_name res) "")
    end.

(** The selector of a reaction as the specification words it: the post id
    wins when both ids are there. *)
Definition specReactionSelector (reactionParams : FbObject) : MsgSelector :=
  if truthy (post_id reactionParams)
  then match post_id reactionParams with
       | Some p => postSelector p
       | None => emptySelector
       end
  else match comment_id reactionParams with
       | Some c => if truthy (Some c) then commentSelector c else emptySelector
       | None => emptySelector
       end.

(** ** Relations between the states of a run *)

(** A computation preserves a relation between the state it starts in and
    the state it ends in, also when it throws. *)
Definition preserves (R : State -> State -> Prop) {A} (m : M A) : Prop :=
  forall st st' r, m st = (st', r) -> R st st'.

(** [quiet]: a run that stores no message and no conversation and keeps
    the page context; it may make requests, create a customer, log and
    notify. *)
Definition quiet (st st' : State) : Prop :=
  messages st' = messages st
  /\ conversations st' = conversations st
  /\ currentPageId st' = currentPageId st
  /\ nextId st <= nextId st'.

(** What stays of a conversation when it is counted, reopened or given a
    new content snapshot. *)
Definition conv_key (c : Conversation) : nat * Status * option ConvFacebook :=
  (c_id c, c_status c, c_facebookData c).

(** What stays of a conversation when it is reopened as well. *)
Definition conv_static (c : Conversation) : nat * option ConvFacebook :=
  (c_id c, c_facebookData c).

(** [appends]: a run that only puts new messages in front of the stored
    ones, creates no conversation and changes no status. *)
Definition appends (st st' : State) : Prop :=
  (exists new, messages st' = new ++ messages st)
  /\ map conv_key (conversations st') = map conv_key (conversations st)
  /\ currentPageId st' = currentPageId st
  /\ nextId st <= nextId st'.

(** The ids of the stored conversations were all handed out by the id
    counter. *)
Definition fresh_ids (st : State) : Prop :=
  forall c, In c (conversations st) -> c_id c < nextId st.

Definition keeps_fresh (st st' : State) : Prop :=
  fresh_ids st -> fresh_ids st'.

(** A Graph API that answers every [graphRequest.get]. *)
Definition answers (W : World) : Prop :=
  forall n path token, exists r, graph_get W n path token = Ok r.

(** The like count of a message, a missing counter counting as zero. *)
Definition likeCountOf (m : Message) : Z :=
  match likeCount (m_facebookData m) with
  | Some n => n
  | None => 0%Z
  end.



(** A run that publishes nothing. *)
Definition unpublished (st st' : State) : Prop :=
  published st' = published st.

(** A run that loses no message and keeps the page context. *)
Definition grows (st st' : State) : Prop :=
  (forall m, In m (messages st) -> In m (messages st'))
  /\ currentPageId st' = currentPageId st.



(** A run after which every messenger message id is carried by as many
    messages as before. *)
Definition same_messageIds (st st' : State) : Prop :=
  forall i, countMessages (messageIdSelector i) st'
            = countMessages (messageIdSelector i) st.


(** What is stored of a fetched comment: the conversation, the content,
    the [facebookData] and the [internal] flag of its message. *)
Definition importedAs (conversation : Conversation) (comment : FbObject)
  : nat * ostring * MsgFacebook * bool :=
  (c_id conversation, Some (orDefault (message comment) "..."),
   generateCommentParams comment, false).

Definition imported (m : Message) : nat * ostring * MsgFacebook * bool :=
  (m_conversationId m, m_content m, m_facebookData m, m_internal m).

(** The page context the loop of [start] ends with. *)
Fixpoint pageAfter (integrationData : FacebookIntegration)
  (entries : list Entry) (page : ostring) : ostring :=
  match entries with
  | [] => page
  | entry :: rest =>
      if negb (includes (pageIds integrationData) (entry_id entry))
      then page
      else pageAfter integrationData rest (Some (entry_id entry))
  end.

(** ** Sample deliveries *)

Module Sample.

Definition object_with (given_id given_parent : ostring)
  (author : option FbUser) (body : ostring) (post parentId kind comment
  action reaction : ostring) : FbObject :=
  mkFbObject given_id given_parent author body None None None post parentId
             kind comment None None action None None None None reaction
             None None None None None None.

Definition token_response : Response :=
  RObject (mkFbObject None None None None None None None None None None
             None None None None None None None None None (Some "PAGE-TOKEN")
             None None None None None).

Definition profile (given_first given_last full : ostring) : Response :=
  RObject (mkFbObject None None None None None None None None None None
             None None None None None None None None None None
             given_first given_last full None None).

Definition page : FbUser := mkFbUser "page1" (Some "Our page").
Definition alice : FbUser := mkFbUser "100" (Some "Alice").
Definition bob : FbUser := mkFbUser "200" (Some "Bob").

Definition integration : Integration :=
  mkIntegration "integration1"
                (Some (mkFacebookIntegration ["page1"] "account1")).

Definition empty : State := mkState [] [] [] [] [] [] 0 None.

(** A Graph API that knows the page token, the post [p1] (which the
    webhook calls [p1-raw]), the comment [c1] on it and the reply [c2] to
    that comment; every user is called John Smith. *)
Definition world : World :=
  mkWorld
    (fun _ path _ =>
       match path with
       | None => Err "no path"
       | Some p =>
           if String.eqb p "page1/?fields=access_token"
           then Ok token_response
           else if String.eqb p "p1-raw" || String.eqb p "p1"
           then Ok (RObject (object_with (Some "p1") None (Some page)
                               (Some "Hello") None None None None None None))
           else Ok (profile None None (Some "John Smith"))
       end)
    (fun _ _ _ =>
       Ok (object_with (Some "p1") None (Some page) (Some "Hello") None
                       None None None None None))
    (fun _ comment _ =>
       if ostring_eqb comment (Some "c2")
       then Ok (object_with (Some "c2") (Some "c1") (Some bob)
                            (Some "a reply") None None None None None None)
       else if ostring_eqb comment (Some "c1")
       then Ok (object_with (Some "c1") None (Some alice)
                            (Some "a comment") None None None None None None)
       else Err "unknown comment")
    (fun _ comment _ =>
       if ostring_eqb comment (Some "c1")
       then Ok [object_with (Some "c2") (Some "c1") (Some bob)
                            (Some "a reply") None None None None None None]
       else Ok []).

(** Alice writes "hi" to the page. *)
Definition hi : MessagingEvent :=
  mkMessagingEvent alice "page1"
                   (Some (mkMessengerMessage "m1" (Some "hi") None)).

(** The page answers Alice. *)
Definition answer : MessagingEvent :=
  mkMessagingEvent (mkFbUser "page1" None) "100"
                   (Some (mkMessengerMessage "m2" (Some "hello") None)).

(** Bob replies [c2] to the comment [c1] on the post. *)
Definition reply : FbObject :=
  object_with None None (Some bob) (Some "a reply") (Some "p1-raw")
              (Some "c1") (Some "comment") (Some "c2") (Some "add") None.

(** Someone likes the comment [c1] of the post [p1]. *)
Definition like : FbObject :=
  object_with None None (Some bob) None (Some "p1") None (Some "like")
              (Some "c1") (Some "add") None.

Definition foreign_then_owned : WebhookData :=
  mkWebhookData "page"
    [mkEntry "page7" None None; mkEntry "page1" (Some [hi]) None].

Definition owned_only : WebhookData :=
  mkWebhookData "page" [mkEntry "page1" (Some [hi]) None].

Definition user_delivery : WebhookData :=
  mkWebhookData "user" [mkEntry "page1" (Some [hi]) None].

(** The state after Alice's "hi" has been delivered to the empty state. *)
Definition after_hi : State :=
  Eval vm_compute in
    fst (start world "USER-TOKEN" integration owned_only empty).

Definition post_message : Message :=
  mkMessage 10 1 0 (Some "Hello") []
    (mkMsgFacebook (Some "p1") (Some "status") None None true None None
                   None None None (Some "page1") None None (Some 1) None [])
    false.

Definition comment_message : Message :=
  mkMessage 11 1 0 (Some "a comment") []
    (mkMsgFacebook (Some "p1") (Some "comment") (Some "c1") None false None
                   None None None None (Some "100") None None None None [])
    false.

(** The state after Alice's "hi", with her conversation closed and
    counting [n] messages. *)
Definition closed_with (n : nat) : State :=
  mkState
    [mkConversation 1 "integration1" 0 CLOSED (Some "hi") n
       (Some (mkConvFacebook MESSENGER (Some "100") (Some "Alice")
                             (Some "page1") None (Some "page1")))]
    (messages after_hi) (customers after_hi) [] [] [] 3 (Some "page1").

Definition alice_conversation (n : nat) : Conversation :=
  mkConversation 1 "integration1" 0 CLOSED (Some "hi") n
    (Some (mkConvFacebook MESSENGER (Some "100") (Some "Alice")
                          (Some "page1") None (Some "page1"))).

Definition answer_params : Params :=
  messengerParams answer (mkMessengerMessage "m2" (Some "hello") None).




(** Nothing stored yet, the page context set to the owned page. *)
Definition on_page : State := mkState [] [] [] [] [] [] 0 (Some "page1").

(** The state after Bob's reply has been delivered on the owned page. *)
Definition after_reply : State :=
  Eval vm_compute in
    fst (getOrCreateConversationByFeed world "USER-TOKEN" integration reply
                                       on_page).


(** A feed conversation about the post, with no message yet, and the
    message data of Bob's reply as [getOrCreateConversationByFeed] passes
    them to [restoreParentPost]. *)
Definition post_conversation : Conversation :=
  mkConversation 1 "integration1" 0 NEW (Some "a reply") 0
    (Some (mkConvFacebook FEED (Some "200") (Some "Bob") None (Some "p1")
                          (Some "page1"))).

Definition bare_conversation : State :=
  mkState [post_conversation] [] [] [] [] [] 2 (Some "page1").

Definition reply_data : MsgFacebook :=
  spread (senderData "200" (Some "Bob")) (generateCommentParams reply).

(** A post and a comment on it, both stored. *)
Definition thread : State :=
  mkState [] [comment_message; post_message] [] [] [] [] 12 (Some "page1").

(** Bob, Alice and Bob again have reacted "love" to the comment. *)
Definition loved : State :=
  Eval vm_compute in
    fst (updateReactions (Some "add") (commentSelector "c1") "love" (Some bob)
      (fst (updateReactions (Some "add") (commentSelector "c1") "love"
              (Some alice)
        (fst (updateReactions (Some "add") (commentSelector "c1") "love"
                (Some bob) thread))))).

(** The comment once Bob's reaction has been removed. *)
Definition unloved_comment : Message :=
  mkMessage 11 1 0 (Some "a comment") []
    (mkMsgFacebook (Some "p1") (Some "comment") (Some "c1") None false None
                   None None None None (Some "100") None None None None
                   [("love", [Some alice])])
    false.

End Sample.

(** More sample data, for the replies and the feed. *)
Module Sample2.

(** Someone takes a like back from the comment [c1]. *)
Definition unlike : FbObject :=
  Sample.object_with None None (Some Sample.bob) None (Some "p1") None
                     (Some "like") (Some "c1") (Some "remove") None.

(** A like that names neither a post nor a comment. *)
Definition stray_like : FbObject :=
  Sample.object_with None None (Some Sample.bob) None None None
                     (Some "like") None (Some "add") None.

(** The page posts a status on its own wall. *)
Definition own_status : FbObject :=
  Sample.object_with None None (Some Sample.page) (Some "News") (Some "p1-raw")
                     None (Some "status") None (Some "add") None.

(** A Graph API whose page token has expired. *)
Definition expired : World :=
  mkWorld (fun _ _ _ => Ok (RString "Error processing https request"))
          (fun _ _ _ => Err "expired")
          (fun _ _ _ => Err "expired")
          (fun _ _ _ => Err "expired").


(** Two comments fetched for a post, the first without an id. *)
Definition nameless_first : list FbObject :=
  [Sample.object_with None None (Some Sample.alice) (Some "a comment") None
                      None None None None None;
   Sample.object_with (Some "c2") (Some "c1") (Some Sample.bob)
                      (Some "a reply") None None None None None None].

(** What [getOrCreateConversationByFeed] passes on for the page's own
    status. *)
Definition own_status_params : Params :=
  mkParams None CLOSED "page1"
    (mkConvFacebook FEED (Some "page1") (Some "Our page") None (Some "p1")
                    None)
    "News" []
    (spread (senderData "page1" (Some "Our page"))
            (generatePostParams own_status)).

(** The state after the page's own status has been delivered, following
    Alice's "hi". *)
Definition after_own_status : State :=
  Eval vm_compute in
    fst (getOrCreateConversationByFeed Sample.world "USER-TOKEN"
           Sample.integration own_status Sample.after_hi).

(** Alice writes, the page answers: one delivery, and the state after it. *)
Definition chat : WebhookData :=
  mkWebhookData "page"
    [mkEntry "page1" (Some [Sample.hi; Sample.answer]) None].

Definition after_chat : State :=
  Eval vm_compute in
    fst (start Sample.world "USER-TOKEN" Sample.integration chat Sample.empty).

(** The accounts: only [account1] is known. *)
Definition accounts (accountId : string) : option Account :=
  if String.eqb accountId "account1" then Some (mkAccount "USER-TOKEN")
  else None.


Definition orphan_integration : Integration :=
  mkIntegration "integration3"
                (Some (mkFacebookIntegration ["page1"] "account9")).


(** The integrations: only [integration1] is stored. *)
Definition integrations (integrationId : string) : option Integration :=
  if String.eqb integrationId "integration1" then Some Sample.integration
  else None.

(** A Graph API that accepts every post: a message sent to the messenger
    is [m3], a comment is [c3]. *)
Definition posted (n : nat) (path : string) (token : ostring)
  (body : PostBody) : result PostResponse :=
  if String.eqb path "me/messages"
  then Ok (mkPostResponse (Some "m3") None)
  else Ok (mkPostResponse None (Some "c3")).

(** An operator's answer, stored and about to be sent. *)
Definition outgoing : Message :=
  mkMessage 20 1 0 (Some "welcome") [] emptyMsgFacebook false.

(** Alice's conversation with the operator's answer, nothing posted yet. *)
Definition replying : ReplyState :=
  mkReplyState (set_messages (cons outgoing) Sample.after_hi) [].

(** The thread of the post [p1] with the operator's answer, nothing posted
    yet. *)
Definition feed_replying : ReplyState :=
  mkReplyState
    (mkState [Sample.post_conversation]
             [outgoing; Sample.comment_message; Sample.post_message]
             [] [] [] [] 21 (Some "page1"))
    [].

(** The answer as a messenger message with a file, and as a reply to the
    comment [c1]. *)
Definition with_file : FacebookReply :=
  mkFacebookReply (Some "see attached") (Some (Some "https://files/1.pdf"))
                  None.

Definition to_comment : FacebookReply :=
  mkFacebookReply (Some "welcome") None (Some "c1").

(** A conversation of an integration that is not stored. *)
Definition lost_conversation : Conversation :=
  mkConversation 5 "integration7" 0 NEW None 0 None.

(** Two comments fetched for the post [p1]: the same comment twice. *)
Definition fetched_twice : list FbObject :=
  [Sample.object_with (Some "c1") None (Some Sample.alice) (Some "a comment")
                      None None None None None None;
   Sample.object_with (Some "c1") None (Some Sample.alice) None
                      None None None None None None].

Definition fetching (n : nat) (post : ostring) (token : Response)
  (limit : option nat) : result (list FbObject) :=
  if ostring_eqb post (Some "p1") then Ok fetched_twice
  else Err "unknown post".

(** The thread of the post once the fetched comments are stored. *)
Definition after_fetch : State :=
  Eval vm_compute in
    fst (getPostComments Sample.world fetching (Some "p1")
           Sample.token_response None Sample.post_conversation
           Sample.thread).



(** Alice's conversation, closed with two messages, when no page context
    is set. *)
Definition closed_pageless : State :=
  mkState (conversations (Sample.closed_with 2))
          (messages (Sample.closed_with 2))
          (customers (Sample.closed_with 2)) [] [] [] 3 None.

End Sample2.

(** * Properties *)

Lemma ostring_eqb_spec (a b : ostring) : reflect (a = b) (ostring_eqb a b).
Proof.
  destruct a as [x|], b as [y|]; simpl; try (constructor; congruence).
  destruct (String.eqb_spec x y); constructor; congruence.
Qed.

(** ** The dispatcher *)

(** C10: a delivery whose [object] is not ["page"], handled for an
    integration that has [facebookData], is ignored: [start] returns at once
    and the whole state is what it was: no document written, no request to
    the Graph API, no notification. *)
Theorem start_ignores_other_objects :
  forall W userAccessToken integration integrationData data st,
    i_facebookData integration = Some integrationData ->
    object data <> "page" ->
    start W userAccessToken integration data st = (st, Ok Undefined).
Proof.
  intros W tok integ fd data st Hfd Hobj.
  unfold start. rewrite Hfd.
  destruct (String.eqb_spec (object data) "page") as [E | _].
  - contradiction.
  - reflexivity.
Qed.

Lemma start_ignores_other_objects_witness :
  start Sample.world "USER-TOKEN" Sample.integration Sample.user_delivery
        Sample.empty
  = (Sample.empty, Ok Undefined).
Proof.
  apply (@start_ignores_other_objects Sample.world "USER-TOKEN"
           Sample.integration (mkFacebookIntegration ["page1"] "account1")
           Sample.user_delivery Sample.empty).
  - reflexivity.
  - discriminate.
Defined.

(** The loop of [start] ends at the first entry of a page the integration
    does not own, whatever follows it. *)
Lemma startEntries_foreign_entry :
  forall W userAccessToken integration integrationData entry rest st,
    includes (pageIds integrationData) (entry_id entry) = false ->
    startEntries W userAccessToken integration integrationData (entry :: rest) st
    = (st, Ok Null).
Proof.
  intros W tok integ fd e rest st H. simpl. rewrite H. reflexivity.
Qed.

(** C1: the delivery [Sample.foreign_then_owned] has an entry of a foreign
    page followed by an entry of the owned page with one messenger event.
    [start] returns [null] at the foreign entry and the owned entry is never
    dispatched: nothing at all is stored, although the same owned entry
    delivered alone stores its message. *)
Theorem start_foreign_entry_drops_later_entries :
  start Sample.world "USER-TOKEN" Sample.integration Sample.foreign_then_owned
        Sample.empty
  = (Sample.empty, Ok Null)
  /\ length (messages (fst (start Sample.world "USER-TOKEN" Sample.integration
                                  Sample.owned_only Sample.empty))) = 1.
Proof.
  split; reflexivity.
Qed.

(** ** Comment metadata *)

(** C6, as stated, fails: a comment with the explicit parent [c1] whose
    [post_id] differs from its [parent_id] [c9] does not keep [c1]. *)
Lemma generateCommentParams_parent_overwritten :
  let comment :=
    Sample.object_with (Some "c2") (Some "c1") None None (Some "p1")
                       (Some "c9") (Some "comment") None None None in
  parentId (generateCommentParams comment) = Some "c9"
  /\ specParentId comment = Some "c1"
  /\ parentId (generateCommentParams comment) <> specParentId comment.
Proof.
  repeat split; discriminate.
Qed.

(** C6, amended: [parentId] is [parent_id] whenever [post_id] differs from
    [parent_id], with or without a parent object; when the two are equal
    (also when both are missing) it is the id of the explicit parent object,
    if there is one.  So it agrees with the wording of the specification on
    every comment that has no parent object, and on every comment whose
    [post_id] equals its [parent_id]. *)
Theorem generateCommentParams_parentId :
  forall commentParams,
    parentId (generateCommentParams commentParams)
    = (if ostring_eqb (post_id commentParams) (parent_id commentParams)
       then parent commentParams
       else parent_id commentParams)
    /\ (parent commentParams = None
        \/ post_id commentParams = parent_id commentParams ->
        parentId (generateCommentParams commentParams)
        = specParentId commentParams).
Proof.
  intros c.
  assert (H : parentId (generateCommentParams c)
              = (if ostring_eqb (post_id c) (parent_id c)
                 then parent c
                 else parent_id c)).
  { unfold generateCommentParams.
    destruct (parent c), (ostring_eqb (post_id c) (parent_id c)),
      (truthy (photo c)), (truthy (video c)), (truthy (created_time c));
      reflexivity. }
  split; [exact H |].
  rewrite H. unfold specParentId. intros [Hp | He].
  - rewrite Hp.
    destruct (ostring_eqb (post_id c) (parent_id c)); reflexivity.
  - rewrite He.
    destruct (ostring_eqb_spec (parent_id c) (parent_id c)) as [_ | N].
    + simpl. destruct (parent c); reflexivity.
    + congruence.
Qed.

Lemma generateCommentParams_parentId_witness :
  let comment :=
    Sample.object_with (Some "c2") (Some "c1") (Some Sample.bob)
                       (Some "a reply") None None None None None None in
  parentId (generateCommentParams comment) = Some "c1"
  /\ parentId (generateCommentParams comment) = specParentId comment.
Proof.
  intros comment.
  destruct (generateCommentParams_parentId comment) as [H1 H2].
  split; [exact H1 | exact (H2 (or_intror eq_refl))].
Defined.

(** ** Conversation lookup of messenger events *)



(** ** Reactions *)

Lemma reactionsOf_pull_reaction :
  forall reactionType uid r,
    reactionsOf reactionType (pull_reaction reactionType uid r)
    = filter (fun u => negb (hasId uid u)) (reactionsOf reactionType r).
Proof.
  intros rt uid r. induction r as [| [k us] r IH]; simpl.
  - reflexivity.
  - destruct (String.eqb k rt) eqn:E; simpl; rewrite E.
    + reflexivity.
    + exact IH.
Qed.

(** C9: after [updateReactions] with a verb other than ["add"], such as
    ["remove"], no message that matches the selector has an entry with the
    actor's id left under [reactions[reactionType]], however often the actor
    had been appended. *)
Theorem updateReactions_remove_clears_actor :
  forall type selector reactionType actor st m u,
    type <> Some "add" ->
    In m (messages (fst (updateReactions type selector reactionType
                           (Some actor) st))) ->
    matchMessage selector m = true ->
    In (Some u) (reactionsOf reactionType (reactions (m_facebookData m))) ->
    fb_id u <> fb_id actor.
Proof.
  intros type sel rt actor st m u Htype Hin Hmatch Hu.
  unfold updateReactions in Hin.
  destruct (ostring_eqb_spec type (Some "add")) as [E | _]; [contradiction |].
  simpl in Hin. apply in_map_iff in Hin. destruct Hin as [m0 [Hm0 _]].
  destruct (matchMessage sel m0) eqn:E0.
  - subst m. simpl in Hu. rewrite reactionsOf_pull_reaction in Hu.
    apply filter_In in Hu. destruct Hu as [_ Hne]. cbn [hasId] in Hne.
    apply negb_true_iff in Hne. apply String.eqb_neq in Hne. exact Hne.
  - subst m. congruence.
Qed.

Lemma updateReactions_remove_clears_actor_witness :
  map (fun m => map (option_map fb_id)
                    (reactionsOf "love" (reactions (m_facebookData m))))
      (messages Sample.loved)
  = [[Some "200"; Some "100"; Some "200"]; []]
  /\ In Sample.unloved_comment
        (messages (fst (updateReactions (Some "remove") (commentSelector "c1")
                          "love" (Some Sample.bob) Sample.loved)))
  /\ matchMessage (commentSelector "c1") Sample.unloved_comment = true
  /\ In (Some Sample.alice)
        (reactionsOf "love"
           (reactions (m_facebookData Sample.unloved_comment)))
  /\ fb_id Sample.alice <> fb_id Sample.bob.
Proof.
  assert (Hin : In Sample.unloved_comment
                   (messages (fst (updateReactions (Some "remove")
                                     (commentSelector "c1") "love"
                                     (Some Sample.bob) Sample.loved))))
    by (left; reflexivity).
  assert (Hu : In (Some Sample.alice)
                  (reactionsOf "love"
                     (reactions (m_facebookData Sample.unloved_comment))))
    by (left; reflexivity).
  repeat split; try assumption; try reflexivity.
  apply (@updateReactions_remove_clears_actor (Some "remove")
           (commentSelector "c1") "love" Sample.bob Sample.loved
           Sample.unloved_comment Sample.alice).
  - discriminate.
  - exact Hin.
  - reflexivity.
  - exact Hu.
Defined.

(** C5, as stated, fails: for a like that carries both [post_id] [p1] and
    [comment_id] [c1] the selector is the comment-id selector, not the
    post-id selector, and the stored post [p1] itself is left untouched while
    the comment [c1] is counted. *)
Lemma handleReactions_post_id_does_not_win :
  reactionSelector Sample.like = commentSelector "c1"
  /\ specReactionSelector Sample.like = postSelector "p1"
  /\ reactionSelector Sample.like <> specReactionSelector Sample.like
  /\ map (fun m => (m_id m, likeCount (m_facebookData m)))
         (messages (fst (handleReactions Sample.like Sample.thread)))
     = [(11, Some 1%Z); (10, None)].
Proof.
  repeat split; discriminate.
Qed.

(** C5, amended: for an event that carries both a [post_id] and a
    [comment_id], [handleReactions] builds its selector from the
    [comment_id] (the comment-id branch comes last and overwrites the
    post-id selector); the like or reaction update runs with that selector,
    and every message that does not match it is left as it was. *)
Theorem handleReactions_comment_id_wins :
  forall reactionParams p c st,
    post_id reactionParams = Some p ->
    comment_id reactionParams = Some c ->
    truthy (Some c) = true ->
    reactionSelector reactionParams = commentSelector c
    /\ (item reactionParams = Some "like" ->
        handleReactions reactionParams st
        = (fst (updateLikeCount (verb reactionParams) (commentSelector c) st),
           Ok Undefined))
    /\ (forall actor,
          item reactionParams = Some "reaction" ->
          from reactionParams = Some actor ->
          handleReactions reactionParams st
          = (fst (updateReactions (verb reactionParams) (commentSelector c)
                    (orDefault (reaction_type reactionParams) "like")
                    (Some actor) st),
             Ok Undefined))
    /\ (forall st' r m,
          handleReactions reactionParams st = (st', r) ->
          In m (messages st) ->
          matchMessage (commentSelector c) m = false ->
          In m (messages st')).
Proof.
  intros rp p c st Hp Hc Ht.
  assert (Hsel : reactionSelector rp = commentSelector c).
  { unfold reactionSelector. rewrite Hp, Hc, Ht. reflexivity. }
  split; [exact Hsel |].
  unfold handleReactions. rewrite Hsel.
  split; [| split].
  - intros Hi. rewrite Hi. reflexivity.
  - intros actor Hi Hf. rewrite Hi, Hf. simpl.
    unfold updateReactions.
    destruct (ostring_eqb (verb rp) (Some "add")); reflexivity.
  - intros st' r m Hrun Hin Hno.
    assert (Hkeep : forall f,
               In m (map (fun m0 => if matchMessage (commentSelector c) m0
                                    then with_facebookData f m0 else m0)
                         (messages st))).
    { intros f. apply in_map_iff. exists m. rewrite Hno. auto. }
    destruct (ostring_eqb_spec (item rp) (Some "like")) as [El | El];
      destruct (ostring_eqb_spec (item rp) (Some "reaction")) as [Er | Er];
      try congruence;
      try destruct (from rp) as [actor |];
      unfold updateReactions, updateLikeCount in Hrun;
      try destruct (ostring_eqb (verb rp) (Some "add"));
      inversion Hrun; subst; simpl; auto.
Qed.

Lemma handleReactions_comment_id_wins_witness :
  reactionSelector Sample.like = commentSelector "c1"
  /\ handleReactions Sample.like Sample.thread
     = (fst (updateLikeCount (Some "add") (commentSelector "c1") Sample.thread),
        Ok Undefined).
Proof.
  pose proof (@handleReactions_comment_id_wins Sample.like "p1" "c1"
                Sample.thread eq_refl eq_refl eq_refl) as [H1 [H2 _]].
  split; [exact H1 | exact (H2 eq_refl)].
Defined.

(** ** Customers *)

(** C7, as stated, fails: when the profile has only the combined name
    "John Smith", the created customer gets the whole of it as first name
    and an empty last name; the name is not split. *)
Lemma getOrCreateCustomer_does_not_split_name :
  snd (getOrCreateCustomer Sample.world "100" "integration1"
                           Sample.token_response Sample.empty)
  = Ok (mkCustomer 0 (Some "John Smith") "" "integration1" "" "100")
  /\ specNames (fields (Sample.profile None None (Some "John Smith")))
     = (Some "John", "Smith")
  /\ (Some "John Smith", "")
     <> specNames (fields (Sample.profile None None (Some "John Smith"))).
Proof.
  repeat split; discriminate.
Qed.

(** C7, amended: when no customer is stored for the user and the profile
    request succeeds, [getOrCreateCustomer] creates a customer whose first
    name is the profile's [first_name] when there is one and otherwise the
    whole combined [name], unsplit, and whose last name is the profile's
    [last_name] or the empty string. *)
Theorem getOrCreateCustomer_names :
  forall W fbUserId integrationId token st res,
    find (fun c => String.eqb (cu_facebookId c) fbUserId) (customers st)
    = None ->
    graph_get W (length (requests st)) (Some (String.append "/" fbUserId))
              (Some token)
    = Ok res ->
    exists st' customer,
      getOrCreateCustomer W fbUserId integrationId token st
      = (st', Ok customer)
      /\ In customer (customers st')
      /\ cu_facebookId customer = fbUserId
      /\ cu_firstName customer
         = (if truthy (first_name (fields res))
            then first_name (fields res)
            else name (fields res))
      /\ cu_lastName customer = orDefault (last_name (fields res)) "".
Proof.
  intros W uid iid token st res Hmiss Hres.
  unfold getOrCreateCustomer, bind, Customers_findOne, gets.
  rewrite Hmiss. unfold graphRequest_get at 1. rewrite Hres.
  unfold getProfilePic, graphRequest_get.
  destruct (graph_get W _ _ None) as [pic | e];
    simpl; eexists; eexists; (split; [reflexivity |]);
    simpl; repeat split; auto.
Qed.

Lemma getOrCreateCustomer_names_witness :
  exists st' customer,
    getOrCreateCustomer Sample.world "100" "integration1"
                        Sample.token_response Sample.empty
    = (st', Ok customer)
    /\ In customer (customers st')
    /\ cu_facebookId customer = "100"
    /\ cu_firstName customer = Some "John Smith"
    /\ cu_lastName customer = "".
Proof.
  exact (@getOrCreateCustomer_names Sample.world "100" "integration1"
           Sample.token_response Sample.empty
           (Sample.profile None None (Some "John Smith")) eq_refl eq_refl).
Defined.

(** ** Fields of the generated documents *)

Lemma commentId_generateCommentParams :
  forall c,
    commentId (generateCommentParams c)
    = (if truthy (id c) then id c else comment_id c).
Proof.
  intros c. unfold generateCommentParams.
  destruct (parent c), (negb (ostring_eqb (post_id c) (parent_id c))),
    (truthy (photo c)), (truthy (video c)), (truthy (created_time c));
    reflexivity.
Qed.

Lemma postId_generatePostParams :
  forall p,
    postId (generatePostParams p) = post_id p
    /\ isPost (generatePostParams p) = true.
Proof.
  intros p. unfold generatePostParams.
  destruct (truthy (link p)), (truthy (video_id p)), (truthy (photo_id p)),
    (truthy (created_time p)), (photos p); split; reflexivity.
Qed.

(** ** Reasoning about runs *)

Lemma bind_inv :
  forall A B (m : M A) (k : A -> M B) st st' r,
    bind m k st = (st', r) ->
    (exists e, m st = (st', Err e) /\ r = Err e)
    \/ (exists a st1, m st = (st1, Ok a) /\ k a st1 = (st', r)).
Proof.
  intros A B m k st st' r H. unfold bind in H.
  destruct (m st) as [st1 [a | e]].
  - right. exists a, st1. auto.
  - left. exists e. inversion H; subst. auto.
Qed.

Lemma bind_Ok_inv :
  forall A B (m : M A) (k : A -> M B) st st' b,
    bind m k st = (st', Ok b) ->
    exists a st1, m st = (st1, Ok a) /\ k a st1 = (st', Ok b).
Proof.
  intros A B m k st st' b H.
  destruct (bind_inv _ _ _ H) as [[e [_ He]] | H']; [discriminate | exact H'].
Qed.

Section Preserves.

Variable R : State -> State -> Prop.
Hypothesis R_refl : forall st, R st st.
Hypothesis R_trans : forall a b c, R a b -> R b c -> R a c.

Lemma preserves_ret : forall A (a : A), preserves R (ret a).
Proof. intros A a st st' r H. inversion H; subst. apply R_refl. Qed.

Lemma preserves_throw : forall A e, preserves R (@throw A e).
Proof. intros A e st st' r H. inversion H; subst. apply R_refl. Qed.

Lemma preserves_gets : forall A (f : State -> A), preserves R (gets f).
Proof. intros A f st st' r H. inversion H; subst. apply R_refl. Qed.

Lemma preserves_bind :
  forall A B (m : M A) (k : A -> M B),
    preserves R m -> (forall a, preserves R (k a)) ->
    preserves R (bind m k).
Proof.
  intros A B m k Hm Hk st st' r H.
  destruct (bind_inv _ _ _ H) as [[e [He _]] | [a [st1 [Ha Hb]]]].
  - eapply Hm; eauto.
  - eapply R_trans; [eapply Hm | eapply Hk]; eauto.
Qed.

Lemma preserves_modify :
  forall f, (forall st, R st (f st)) -> preserves R (modify f).
Proof. intros f Hf st st' r H. inversion H; subst. apply Hf. Qed.

End Preserves.

(** Break a goal [preserves R m] along the structure of [m]. *)
Ltac preserve_with refl trans :=
  repeat
    match goal with
    | H : preserves ?R ?m |- preserves ?R ?m => exact H
    | |- preserves _ (ret _) => apply (@preserves_ret _ refl)
    | |- preserves _ (throw _) => apply (@preserves_throw _ refl)
    | |- preserves _ (gets _) => apply (@preserves_gets _ refl)
    | |- preserves _ (bind _ _) => apply (@preserves_bind _ trans); [| intro]
    | |- preserves _ (if ?b then _ else _) => destruct b
    | |- preserves _ (match ?x with _ => _ end) => destruct x
    end.

Lemma quiet_refl : forall st, quiet st st.
Proof. intros st. repeat split; auto. Qed.

Lemma quiet_trans : forall a b c, quiet a b -> quiet b c -> quiet a c.
Proof.
  intros a b c [H1 [H2 [H3 H4]]] [K1 [K2 [K3 K4]]].
  repeat split; try congruence. lia.
Qed.

Lemma appends_refl : forall st, appends st st.
Proof. intros st. repeat split; auto. exists []. reflexivity. Qed.

Lemma appends_trans : forall a b c, appends a b -> appends b c -> appends a c.
Proof.
  intros a b c [[n1 H1] [H2 [H3 H4]]] [[n2 K1] [K2 [K3 K4]]].
  repeat split; try congruence; try lia.
  exists (n2 ++ n1). rewrite K1, H1. apply app_assoc.
Qed.

Lemma quiet_appends : forall st st', quiet st st' -> appends st st'.
Proof.
  intros st st' [H1 [H2 [H3 H4]]]. repeat split; try congruence.
  exists []. exact H1.
Qed.

Lemma preserves_weaken :
  forall (R R' : State -> State -> Prop) A (m : M A),
    (forall st st', R st st' -> R' st st') ->
    preserves R m -> preserves R' m.
Proof. intros R R' A m HR Hm st st' r H. apply HR. eapply Hm. eauto. Qed.

Lemma quiet_to_appends :
  forall A (m : M A), preserves quiet m -> preserves appends m.
Proof.
  intros A m. apply preserves_weaken. exact quiet_appends.
Qed.

Section Runs.

Variable W : World.
Variable userAccessToken : string.
Variable integration : Integration.

Lemma quiet_graphRequest_get :
  forall path token, preserves quiet (graphRequest_get W path token).
Proof.
  intros path token st st' r H. inversion H; subst. repeat split; auto.
Qed.

Lemma quiet_request_getPostInfo :
  forall p t, preserves quiet (request_getPostInfo W p t).
Proof. intros p t st st' r H. inversion H; subst. repeat split; auto. Qed.

Lemma quiet_request_getCommentInfo :
  forall p t, preserves quiet (request_getCommentInfo W p t).
Proof. intros p t st st' r H. inversion H; subst. repeat split; auto. Qed.

Lemma quiet_request_getComments :
  forall p t, preserves quiet (request_getComments W p t).
Proof. intros p t st st' r H. inversion H; subst. repeat split; auto. Qed.

Lemma quiet_getPageAccessToken :
  preserves quiet (getPageAccessToken W userAccessToken).
Proof.
  unfold getPageAccessToken.
  preserve_with quiet_refl quiet_trans. apply quiet_graphRequest_get.
Qed.

Lemma quiet_getProfilePic :
  forall fbId, preserves quiet (getProfilePic W fbId).
Proof.
  intros fbId st st' r H. unfold getProfilePic in H.
  destruct (graphRequest_get W _ None st) as [st1 [a | e]] eqn:E;
    inversion H; subst; eapply quiet_graphRequest_get; eauto.
Qed.

Lemma quiet_getOrCreateCustomer :
  forall fbUserId integrationId token,
    preserves quiet (getOrCreateCustomer W fbUserId integrationId token).
Proof.
  intros uid iid token. unfold getOrCreateCustomer, Customers_findOne.
  preserve_with quiet_refl quiet_trans.
  - apply quiet_graphRequest_get.
  - apply quiet_getProfilePic.
  - intros st st' r H. inversion H; subst. repeat split; simpl; auto.
  - apply preserves_modify. intros st. repeat split; auto.
Qed.

Lemma map_conv_key_update :
  forall (f : Conversation -> Conversation) (test : Conversation -> bool) cs,
    (forall c, conv_key (f c) = conv_key c) ->
    map conv_key (map (fun c => if test c then f c else c) cs)
    = map conv_key cs.
Proof.
  intros f test cs Hf. rewrite map_map. apply map_ext.
  intros c. destruct (test c); auto.
Qed.

Lemma appends_ConversationMessages_createMessage :
  forall cid cu content atts fd internal,
    preserves appends
      (ConversationMessages_createMessage cid cu content atts fd internal).
Proof.
  intros cid cu content atts fd internal st st' r H.
  inversion H; subst; clear H. repeat split; simpl; auto.
  - eexists [_]. reflexivity.
  - apply map_conv_key_update. reflexivity.
Qed.

Lemma appends_Conversations_setContent :
  forall cid content, preserves appends (Conversations_setContent cid content).
Proof.
  intros cid content. apply preserves_modify. intros st.
  repeat split; simpl; auto.
  - exists []. reflexivity.
  - apply map_conv_key_update. reflexivity.
Qed.

Lemma quiet_publishClientMessage :
  forall m, preserves quiet (publishClientMessage m).
Proof.
  intros m. apply preserves_modify. intros st. repeat split; auto.
Qed.

Lemma quiet_publishMessage :
  forall m c, preserves quiet (publishMessage m c).
Proof.
  intros m c. apply preserves_modify. intros st. repeat split; auto.
Qed.

Lemma appends_createMessage :
  forall conversation userId content atts fd,
    preserves appends
      (createMessage W userAccessToken integration conversation userId
                     content atts fd).
Proof.
  intros conv uid content atts fd. unfold createMessage.
  preserve_with appends_refl appends_trans.
  - apply quiet_to_appends, quiet_getPageAccessToken.
  - apply quiet_to_appends, quiet_getOrCreateCustomer.
  - apply appends_ConversationMessages_createMessage.
  - apply appends_Conversations_setContent.
  - apply quiet_to_appends, quiet_publishClientMessage.
  - apply quiet_to_appends, quiet_publishMessage.
Qed.

(** A successful [createMessage] puts exactly one message in front of the
    stored ones: the one whose id it returns, in the given conversation,
    with the given data. *)
Lemma createMessage_Ok :
  forall conversation userId content atts fd st st' mid,
    createMessage W userAccessToken integration conversation userId
                  content atts fd st = (st', Ok mid) ->
    exists m,
      messages st' = m :: messages st
      /\ m_id m = mid
      /\ m_conversationId m = c_id conversation
      /\ m_content m = content
      /\ m_facebookData m = fd.
Proof.
  intros conv uid content atts fd st st' mid H.
  unfold createMessage in H.
  apply bind_Ok_inv in H. destruct H as [token [st1 [H1 H]]].
  apply bind_Ok_inv in H. destruct H as [customer [st2 [H2 H]]].
  apply quiet_getPageAccessToken in H1. destruct H1 as [M1 _].
  apply quiet_getOrCreateCustomer in H2. destruct H2 as [M2 _].
  inversion H; subst; clear H. simpl.
  eexists. rewrite M2, M1. repeat split.
Qed.

Lemma appends_createMessageFromComments :
  forall conversation userId comments,
    preserves appends
      (createMessageFromComments W userAccessToken integration conversation
                                 userId comments).
Proof.
  intros conv uid cs. induction cs as [| comment rest IH]; simpl.
  - apply (@preserves_ret _ appends_refl).
  - unfold ConversationMessages_findOne.
    preserve_with appends_refl appends_trans.
    apply appends_createMessage.
Qed.

Lemma appends_restoreParentPost :
  forall conversation userId fd,
    preserves appends
      (restoreParentPost W userAccessToken integration conversation userId
                         fd).
Proof.
  intros conv uid fd. unfold restoreParentPost, ConversationMessages_findOne.
  preserve_with appends_refl appends_trans.
  - apply quiet_to_appends, quiet_getPageAccessToken.
  - apply quiet_to_appends, quiet_request_getPostInfo.
  - apply appends_createMessage.
  - apply quiet_to_appends, quiet_request_getCommentInfo.
  - apply quiet_to_appends, quiet_request_getCommentInfo.
  - apply quiet_to_appends, quiet_request_getComments.
  - apply appends_createMessageFromComments.
Qed.

(** A successful [newConversation] stores one conversation, in front of
    the others and under an id that was not in use, and no message. *)
Lemma newConversation_Ok :
  forall params st st1 c,
    newConversation W userAccessToken integration params st = (st1, Ok c) ->
    conversations st1 = c :: conversations st
    /\ messages st1 = messages st
    /\ nextId st <= c_id c
    /\ c_status c = status params
    /\ exists pageId,
         c_facebookData c = Some (with_pageId (facebookData params) pageId).
Proof.
  intros params st st1 c H. unfold newConversation in H.
  apply bind_Ok_inv in H. destruct H as [token [sa [H1 H]]].
  apply bind_Ok_inv in H. destruct H as [customer [sb [H2 H]]].
  apply quiet_getPageAccessToken in H1. destruct H1 as [M1 [C1 [_ N1]]].
  apply quiet_getOrCreateCustomer in H2. destruct H2 as [M2 [C2 [_ N2]]].
  apply bind_Ok_inv in H. destruct H as [pageId [sc [H3 H]]].
  inversion H3; subst; clear H3.
  destruct (negb (truthy (currentPageId sc))); [discriminate |].
  inversion H; subst; clear H. simpl.
  rewrite C2, C1, M2, M1. repeat split; [lia | eauto].
Qed.

(** A successful [Conversations.reopen] returns a conversation with the
    given id, opens every stored conversation with that id and touches
    nothing else. *)
Lemma Conversations_reopen_Ok :
  forall cid st st1 c,
    Conversations_reopen cid st = (st1, Ok c) ->
    c_id c = cid
    /\ messages st1 = messages st
    /\ map conv_static (conversations st1)
       = map conv_static (conversations st)
    /\ (forall c', In c' (conversations st1) -> c_id c' = cid ->
                   c_status c' = OPEN).
Proof.
  intros cid st st1 c H. unfold Conversations_reopen in H.
  destruct (find (fun c0 => Nat.eqb (c_id c0) cid) (conversations st))
    as [c0 |] eqn:E; [| discriminate].
  apply find_some in E. destruct E as [_ E]. apply Nat.eqb_eq in E.
  inversion H; subst; clear H. simpl. repeat split.
  - rewrite map_map. apply map_ext. intros c1.
    destruct (Nat.eqb (c_id c1) (c_id c0)); reflexivity.
  - intros c' Hin Hid. apply in_map_iff in Hin.
    destruct Hin as [c1 [Hc1 _]].
    destruct (Nat.eqb (c_id c1) (c_id c0)) eqn:E1; subst c'.
    + reflexivity.
    + simpl in Hid. apply Nat.eqb_neq in E1. contradiction.
Qed.

Lemma Conversations_reopen_found :
  forall c st,
    In c (conversations st) ->
    exists st1 c1, Conversations_reopen (c_id c) st = (st1, Ok c1).
Proof.
  intros c st Hin. unfold Conversations_reopen.
  destruct (find (fun c0 => Nat.eqb (c_id c0) (c_id c)) (conversations st))
    as [c0 |] eqn:E.
  - eauto.
  - exfalso. eapply find_none in E; eauto.
    rewrite Nat.eqb_refl in E. discriminate.
Qed.

End Runs.

Lemma closedWithHistory_iff :
  forall c,
    closedWithHistory c
    = Nat.ltb 1 (c_messageCount c) && Status_eqb (c_status c) CLOSED.
Proof.
  intros c. unfold closedWithHistory.
  destruct (Nat.ltb_spec 1 (c_messageCount c)) as [H | H]; simpl.
  - destruct (Nat.ltb_spec 0 (c_messageCount c)); [reflexivity | lia].
  - apply andb_false_r.
Qed.

Lemma appends_conversation_back :
  forall st st' c',
    appends st st' -> In c' (conversations st') ->
    exists c, In c (conversations st) /\ conv_key c = conv_key c'.
Proof.
  intros st st' c' [_ [Hk _]] Hin.
  apply (in_map conv_key) in Hin. rewrite Hk in Hin.
  apply in_map_iff in Hin. destruct Hin as [c [E Hin]]. eauto.
Qed.


Lemma appends_message_kept :
  forall st st' m, appends st st' -> In m (messages st) -> In m (messages st').
Proof.
  intros st st' m [[new Hm] _] Hin. rewrite Hm. apply in_or_app. auto.
Qed.

(** *** Ids stay fresh *)

Lemma keeps_fresh_refl : forall st, keeps_fresh st st.
Proof. intros st H. exact H. Qed.

Lemma keeps_fresh_trans :
  forall a b c, keeps_fresh a b -> keeps_fresh b c -> keeps_fresh a c.
Proof. intros a b c H1 H2 H. auto. Qed.

Lemma appends_keeps_fresh : forall st st', appends st st' -> keeps_fresh st st'.
Proof.
  intros st st' A Hf c' Hin.
  destruct (@appends_conversation_back _ _ _ A Hin) as [c [Hc Hk]].
  destruct A as [_ [_ [_ Hn]]].
  apply Hf in Hc. unfold conv_key in Hk.
  assert (E : c_id c = c_id c') by congruence. lia.
Qed.

Lemma appends_to_keeps_fresh :
  forall A (m : M A), preserves appends m -> preserves keeps_fresh m.
Proof. intros A m. apply preserves_weaken. exact appends_keeps_fresh. Qed.

Lemma quiet_to_keeps_fresh :
  forall A (m : M A), preserves quiet m -> preserves keeps_fresh m.
Proof. intros A m H. apply appends_to_keeps_fresh, quiet_to_appends, H. Qed.

Lemma keeps_fresh_updateMany :
  forall sel f, preserves keeps_fresh (ConversationMessages_updateMany sel f).
Proof.
  intros sel f. apply preserves_modify. intros st Hf. exact Hf.
Qed.

Lemma keeps_fresh_reopen :
  forall cid, preserves keeps_fresh (Conversations_reopen cid).
Proof.
  intros cid st st' r H Hf c' Hin. unfold Conversations_reopen in H.
  destruct (find (fun c0 => Nat.eqb (c_id c0) cid) (conversations st))
    as [found |];
    inversion H; subst; clear H; [| auto].
  simpl in Hin. apply in_map_iff in Hin. destruct Hin as [c1 [E Hin]].
  apply Hf in Hin. simpl.
  destruct (Nat.eqb (c_id c1) cid); subst c'; simpl; exact Hin.
Qed.

Section FreshIds.

Variable W : World.
Variable userAccessToken : string.
Variable integration : Integration.

Lemma keeps_fresh_newConversation :
  forall params,
    preserves keeps_fresh (newConversation W userAccessToken integration params).
Proof.
  intros params. unfold newConversation.
  preserve_with keeps_fresh_refl keeps_fresh_trans.
  - apply quiet_to_keeps_fresh, quiet_getPageAccessToken.
  - apply quiet_to_keeps_fresh, quiet_getOrCreateCustomer.
  - intros st st' r H Hf c Hin. inversion H; subst; clear H.
    simpl in *. destruct Hin as [E | Hin].
    + subst c. simpl. lia.
    + apply Hf in Hin. lia.
  - apply preserves_modify. intros st Hf. exact Hf.
Qed.

Lemma keeps_fresh_getOrCreateConversation :
  forall params,
    preserves keeps_fresh
      (getOrCreateConversation W userAccessToken integration params).
Proof.
  intros params. unfold getOrCreateConversation, Conversations_findOne.
  preserve_with keeps_fresh_refl keeps_fresh_trans;
    try apply keeps_fresh_newConversation;
    try apply keeps_fresh_reopen;
    try (apply appends_to_keeps_fresh, appends_restoreParentPost);
    try (apply appends_to_keeps_fresh, appends_createMessage).
Qed.

Lemma keeps_fresh_handleReactions :
  forall reactionParams, preserves keeps_fresh (handleReactions reactionParams).
Proof.
  intros rp. unfold handleReactions, updateLikeCount, updateReactions.
  preserve_with keeps_fresh_refl keeps_fresh_trans;
    apply keeps_fresh_updateMany.
Qed.

Lemma keeps_fresh_getOrCreateConversationByMessenger :
  forall event,
    preserves keeps_fresh
      (getOrCreateConversationByMessenger W userAccessToken integration event).
Proof.
  intros event.
  unfold getOrCreateConversationByMessenger, ConversationMessages_findOne.
  preserve_with keeps_fresh_refl keeps_fresh_trans.
  apply keeps_fresh_getOrCreateConversation.
Qed.

Lemma keeps_fresh_getOrCreateConversationByFeed :
  forall value,
    preserves keeps_fresh
      (getOrCreateConversationByFeed W userAccessToken integration value).
Proof.
  intros value.
  unfold getOrCreateConversationByFeed, ConversationMessages_findOne.
  preserve_with keeps_fresh_refl keeps_fresh_trans;
    try apply keeps_fresh_handleReactions;
    try apply keeps_fresh_getOrCreateConversation;
    try (apply quiet_to_keeps_fresh, quiet_getPageAccessToken);
    try (apply quiet_to_keeps_fresh, quiet_graphRequest_get).
Qed.

Lemma keeps_fresh_viaMessengerEvent :
  forall events,
    preserves keeps_fresh
      (viaMessengerEvent W userAccessToken integration events).
Proof.
  intros events. induction events as [| event rest IH]; simpl.
  - apply (@preserves_ret _ keeps_fresh_refl).
  - preserve_with keeps_fresh_refl keeps_fresh_trans;
      apply keeps_fresh_getOrCreateConversationByMessenger.
Qed.

Lemma keeps_fresh_viaFeedEvent :
  forall values,
    preserves keeps_fresh (viaFeedEvent W userAccessToken integration values).
Proof.
  intros values. induction values as [| value rest IH]; simpl.
  - apply (@preserves_ret _ keeps_fresh_refl).
  - preserve_with keeps_fresh_refl keeps_fresh_trans.
    apply keeps_fresh_getOrCreateConversationByFeed.
Qed.

(** Every delivery keeps the ids of the stored conversations below the id
    counter, so every state reached from the empty store has fresh ids. *)
Lemma start_keeps_fresh_ids :
  forall data st st' r,
    fresh_ids st ->
    start W userAccessToken integration data st = (st', r) ->
    fresh_ids st'.
Proof.
  intros data st st' r Hf H. revert Hf.
  change (keeps_fresh st st'). revert st st' r H.
  change (preserves keeps_fresh (start W userAccessToken integration data)).
  unfold start.
  destruct (i_facebookData integration) as [fd |];
    [| apply (@preserves_throw _ keeps_fresh_refl)].
  destruct (String.eqb (object data) "page");
    [| apply (@preserves_ret _ keeps_fresh_refl)].
  induction (entry data) as [| e rest IH]; simpl.
  - apply (@preserves_ret _ keeps_fresh_refl).
  - preserve_with keeps_fresh_refl keeps_fresh_trans;
      try apply keeps_fresh_viaMessengerEvent;
      try apply keeps_fresh_viaFeedEvent;
      try (apply preserves_modify; intros s Hs; exact Hs).
Qed.

End FreshIds.

(** ** Find, create or reopen *)



(** ** Redelivery *)

Section Redelivery.

Variable W : World.
Variable userAccessToken : string.
Variable integration : Integration.

Lemma restoreParentPost_without_post :
  forall conversation userId fd st,
    postId fd = None ->
    restoreParentPost W userAccessToken integration conversation userId fd st
    = (st, Ok false).
Proof.
  intros conv uid fd st H. unfold restoreParentPost. rewrite H. reflexivity.
Qed.

(** A successful [getOrCreateConversation] ends by storing the message of
    the event, in front of everything stored before; when the event
    carries no post id nothing else is stored. *)
Lemma getOrCreateConversation_Ok :
  forall params st st' mid,
    getOrCreateConversation W userAccessToken integration params st
    = (st', Ok mid) ->
    exists m new,
      messages st' = m :: new ++ messages st
      /\ m_id m = mid
      /\ m_facebookData m = msgFacebookData params
      /\ (postId (msgFacebookData params) = None -> new = []).
Proof.
  intros params st st' mid H. unfold getOrCreateConversation in H.
  apply bind_Ok_inv in H. destruct H as [found [s0 [H0 H]]].
  assert (E0 : s0 = st).
  { destruct (findSelector params); inversion H0; reflexivity. }
  subst s0.
  apply bind_Ok_inv in H. destruct H as [conv [s1 [H1 H]]].
  assert (M1 : messages s1 = messages st).
  { destruct found as [c |]; [destruct (closedWithHistory c) |].
    - apply newConversation_Ok in H1. tauto.
    - apply Conversations_reopen_Ok in H1. tauto.
    - apply newConversation_Ok in H1. tauto. }
  apply bind_Ok_inv in H. destruct H as [restored [s2 [H2 H]]].
  apply createMessage_Ok in H. destruct H as [m [Hm [Hid [_ [_ Hfd]]]]].
  pose proof H2 as A2. apply appends_restoreParentPost in A2.
  destruct A2 as [[new Hnew] _].
  exists m, new. rewrite Hm, Hnew, M1. repeat split; auto.
  intros Hp. rewrite (restoreParentPost_without_post _ _ _ _ Hp) in H2.
  inversion H2; subst s2.
  apply (f_equal (@length Message)) in Hnew.
  rewrite length_app, M1 in Hnew.
  destruct new; [reflexivity | simpl in Hnew; lia].
Qed.

End Redelivery.

Lemma find_none_filter :
  forall A (f : A -> bool) l, find f l = None -> filter f l = [].
Proof.
  intros A f l. induction l as [| a l IH]; simpl; [reflexivity |].
  destruct (f a); [discriminate | exact IH].
Qed.


Lemma matchMessage_messageId :
  forall m i,
    messageId (m_facebookData m) = Some i ->
    matchMessage (messageIdSelector i) m = true.
Proof.
  intros m i H. unfold matchMessage, messageIdSelector. simpl.
  rewrite H. simpl. apply String.eqb_refl.
Qed.




(** *** Comments that are not replies *)

Section TopLevelComments.

Variable W : World.
Variable userAccessToken : string.
Variable integration : Integration.





End TopLevelComments.


(** ** Backfill of the parent post *)

Lemma find_exists :
  forall A (f : A -> bool) l a,
    In a l -> f a = true -> exists b, find f l = Some b.
Proof.
  intros A f l a Hin Hf. destruct (find f l) as [b |] eqn:E.
  - eauto.
  - rewrite (find_none _ _ E _ Hin) in Hf. discriminate.
Qed.

Section Backfill.

Variable W : World.
Variable userAccessToken : string.
Variable integration : Integration.

(** When the conversation has a message flagged [isPost] under the post id
    of the event, [restoreParentPost] returns [false] and does nothing. *)
Lemma restoreParentPost_post_recorded :
  forall conversation userId fd post m st,
    postId fd = Some post ->
    find (matchMessage (rootPostSelector (c_id conversation) post))
         (messages st) = Some m ->
    restoreParentPost W userAccessToken integration conversation userId fd st
    = (st, Ok false).
Proof.
  intros conv uid fd post m st Hp Hf. unfold restoreParentPost. rewrite Hp.
  destruct (negb (truthy (Some post))); [reflexivity |].
  destruct (negb (ostring_eqb (fbitem fd) (Some "comment"))); [reflexivity |].
  unfold bind, ConversationMessages_findOne, gets. rewrite Hf. reflexivity.
Qed.

(** When the Graph API returns the post under the id it was asked for, a
    second run of [restoreParentPost] after a first one that restored the
    post returns [false] and does nothing. *)
Lemma restoreParentPost_twice_same_id :
  forall conversation userId fd post st st1,
    postId fd = Some post ->
    (forall n token o,
        getPostInfo W n (Some post) token = Ok o -> id o = Some post) ->
    restoreParentPost W userAccessToken integration conversation userId fd st
    = (st1, Ok true) ->
    restoreParentPost W userAccessToken integration conversation userId fd st1
    = (st1, Ok false).
Proof.
  intros conv uid fd post st st1 Hp Hid Hrun.
  unfold restoreParentPost in Hrun. rewrite Hp in Hrun.
  destruct (negb (truthy (Some post))); [discriminate |].
  destruct (negb (ostring_eqb (fbitem fd) (Some "comment"))); [discriminate |].
  apply bind_Ok_inv in Hrun. destruct Hrun as [parentPost [s0 [F0 Hrun]]].
  inversion F0; subst s0 parentPost; clear F0.
  destruct (find _ (messages st)); [discriminate |].
  apply bind_Ok_inv in Hrun. destruct Hrun as [token [sa [_ Hrun]]].
  apply bind_Ok_inv in Hrun. destruct Hrun as [o [sb [Ho Hrun]]].
  inversion Ho as [[Esb Eo]]. apply Hid in Eo.
  destruct (from o) as [author |]; [| discriminate].
  apply bind_Ok_inv in Hrun. destruct Hrun as [i [sc [Hc Hrun]]].
  apply createMessage_Ok in Hc. destruct Hc as [m [Hm [_ [Hconv [_ Hfd]]]]].
  assert (Hmatch : matchMessage (rootPostSelector (c_id conv) post) m = true).
  { unfold matchMessage, rootPostSelector. simpl.
    rewrite Hconv, Hfd, Nat.eqb_refl.
    cbn [spread postId isPost postSenderData pick].
    destruct (postId_generatePostParams
                (withItemPost o (Some "status") (id o))) as [P1 P2].
    rewrite P1, P2. simpl. rewrite Eo. simpl.
    rewrite String.eqb_refl. reflexivity. }
  assert (A : appends sc st1).
  { revert Hrun.
    match goal with
    | |- ?rest sc = _ -> _ =>
        assert (P : preserves appends rest);
        [| intros Hrun; exact (P _ _ _ Hrun)]
    end.
    preserve_with appends_refl appends_trans.
    - apply quiet_to_appends, quiet_request_getCommentInfo.
    - apply quiet_to_appends, quiet_request_getCommentInfo.
    - apply quiet_to_appends, quiet_request_getComments.
    - apply appends_createMessageFromComments. }
  assert (Hin : In m (messages st1)).
  { eapply appends_message_kept; [exact A |]. rewrite Hm. left. reflexivity. }
  destruct (find_exists _ _ _ Hin Hmatch) as [m' Hm'].
  eapply restoreParentPost_post_recorded; eauto.
Qed.

Lemma matchMessage_commentOf :
  forall k c m,
    matchMessage (commentOfSelector k c) m
    = Nat.eqb (m_conversationId m) k
      && ostring_eqb (commentId (m_facebookData m)) (Some c).
Proof.
  intros k c m. unfold matchMessage, commentOfSelector. simpl.
  rewrite !andb_true_r. reflexivity.
Qed.

(** [createMessageFromComments] stores no comment whose id is already
    recorded in the conversation: after a successful run a comment id is
    recorded at most once, unless it was recorded more often before. *)
Lemma createMessageFromComments_no_duplicates :
  forall conversation userId comments st st' r c,
    createMessageFromComments W userAccessToken integration conversation
                              userId comments st = (st', Ok r) ->
    countMessages (commentOfSelector (c_id conversation) c) st'
    <= Nat.max 1 (countMessages (commentOfSelector (c_id conversation) c) st).
Proof.
  intros conv uid cs. induction cs as [| comment rest IH];
    intros st st' r c Hrun; cbn [createMessageFromComments] in Hrun.
  - inversion Hrun; subst. lia.
  - destruct (id comment) as [cid |] eqn:Eid;
      [| inversion Hrun; subst; lia].
    destruct (truthy (Some cid)) eqn:Et; [| inversion Hrun; subst; lia].
    apply bind_Ok_inv in Hrun. destruct Hrun as [prev [s0 [F0 Hrun]]].
    inversion F0; subst s0 prev; clear F0.
    destruct (find (matchMessage (commentOfSelector (c_id conv) cid))
                   (messages st)) as [p |] eqn:Ef.
    + eapply IH; eauto.
    + destruct (from comment) as [author |]; [| discriminate].
      apply bind_Ok_inv in Hrun. destruct Hrun as [i [s1 [Hc Hrun]]].
      apply createMessage_Ok in Hc.
      destruct Hc as [m [Hm [_ [Hconv [_ Hfd]]]]].
      apply IH with (c := c) in Hrun.
      assert (Hcid : commentId (m_facebookData m) = Some cid).
      { rewrite Hfd. cbn [spread commentId senderData pick].
        rewrite commentId_generateCommentParams. simpl.
        rewrite Eid, Et. reflexivity. }
      assert (Hs1 : countMessages (commentOfSelector (c_id conv) c) s1
                    <= Nat.max 1
                         (countMessages (commentOfSelector (c_id conv) c) st)).
      { unfold countMessages. rewrite Hm. simpl.
        rewrite matchMessage_commentOf, Hconv, Hcid, Nat.eqb_refl. simpl.
        destruct (String.eqb_spec cid c) as [E | N].
        - subst c. rewrite (find_none_filter _ _ Ef). simpl. lia.
        - destruct (length (filter _ (messages st))); lia. }
      lia.
Qed.

End Backfill.

(** C4: [restoreParentPost] is run twice for Bob's reply [c2] in the same
    conversation.  The webhook names the post [p1-raw], the Graph API
    returns it under its id [p1], and the root-post message is stored under
    [p1]; the second run looks for a post message under [p1-raw], finds
    none, and stores the root post a second time.  The comments [c1] and
    [c2] are stored once. *)
Theorem restoreParentPost_twice_duplicates_post :
  let once :=
    restoreParentPost Sample.world "USER-TOKEN" Sample.integration
      Sample.post_conversation "200" Sample.reply_data
      Sample.bare_conversation in
  let twice :=
    restoreParentPost Sample.world "USER-TOKEN" Sample.integration
      Sample.post_conversation "200" Sample.reply_data (fst once) in
  let root_post := mkMsgSelector (Some 1) (Some true) None None None in
  postId Sample.reply_data = Some "p1-raw"
  /\ snd once = Ok true
  /\ snd twice = Ok true
  /\ countMessages root_post (fst once) = 1
  /\ countMessages root_post (fst twice) = 2
  /\ map (fun m => postId (m_facebookData m))
         (filter (matchMessage root_post) (messages (fst twice)))
     = [Some "p1"; Some "p1"]
  /\ countMessages (commentSelector "c1") (fst twice) = 1
  /\ countMessages (commentSelector "c2") (fst twice) = 1.
Proof.
  vm_compute. repeat split.
Qed.

(** ** Continuity of messenger conversations *)




Section Continuity.

Variable W : World.
Variable userAccessToken : string.
Variable integration : Integration.


(** When the lookup finds a conversation that is not closed, the message
    of a messenger event goes to that conversation. *)
Lemma messenger_event_joins :
  forall event msg st st1 i c,
    find (matchConversation
            (messengerSelector (fb_id (sender event)) (recipient event)))
         (conversations st) = Some c ->
    c_status c <> CLOSED ->
    getOrCreateConversation W userAccessToken integration
                            (messengerParams event msg) st = (st1, Ok i) ->
    exists m,
      messages st1 = m :: messages st
      /\ messageId (m_facebookData m) = Some (mid msg)
      /\ m_conversationId m = c_id c.
Proof.
  intros event msg st st1 i c Hfind Hopen H.
  unfold getOrCreateConversation in H. simpl findSelector in H.
  apply bind_Ok_inv in H. destruct H as [found [s0 [H0 H]]].
  unfold Conversations_findOne, gets in H0. rewrite Hfind in H0.
  inversion H0; subst s0 found; clear H0.
  assert (Hc : closedWithHistory c = false).
  { rewrite closedWithHistory_iff. destruct (c_status c); simpl;
      try apply andb_false_r. congruence. }
  rewrite Hc in H.
  apply bind_Ok_inv in H. destruct H as [conv [s1 [H1 H]]].
  apply Conversations_reopen_Ok in H1. destruct H1 as [I1 [M1 _]].
  apply bind_Ok_inv in H. destruct H as [restored [s2 [H2 H]]].
  rewrite restoreParentPost_without_post in H2 by reflexivity.
  inversion H2; subst s2 restored; clear H2.
  apply createMessage_Ok in H. destruct H as [m [Hm [_ [Hconv [_ Hfd]]]]].
  exists m. rewrite Hm, M1, Hfd, Hconv. auto.
Qed.


End Continuity.




(** ** Runs that succeed *)

Lemma bind_Ok_intro :
  forall A B (m : M A) (k : A -> M B) st st1 st' a b,
    m st = (st1, Ok a) -> k a st1 = (st', Ok b) ->
    bind m k st = (st', Ok b).
Proof.
  intros A B m k st st1 st' a b Hm Hk. unfold bind. rewrite Hm. exact Hk.
Qed.

Section Success.

Variable W : World.
Variable userAccessToken : string.
Variable integration : Integration.
Hypothesis W_answers : answers W.

Lemma getPageAccessToken_succeeds :
  forall st, exists st' r,
    getPageAccessToken W userAccessToken st = (st', Ok r).
Proof.
  intros st. unfold getPageAccessToken, bind, gets, graphRequest_get.
  destruct (W_answers (length (requests st))
              (Some (String.append (template (currentPageId st) "null")
                                   "/?fields=access_token"))
              (Some (RString userAccessToken))) as [r Hr].
  rewrite Hr. eexists. eexists. reflexivity.
Qed.

Lemma getOrCreateCustomer_succeeds :
  forall fbUserId integrationId token st, exists st' customer,
    getOrCreateCustomer W fbUserId integrationId token st = (st', Ok customer).
Proof.
  intros uid iid token st.
  unfold getOrCreateCustomer, bind, Customers_findOne, gets.
  destruct (find _ (customers st)) as [c |];
    [eexists; eexists; reflexivity |].
  unfold graphRequest_get at 1.
  destruct (W_answers (length (requests st)) (Some (String.append "/" uid))
                      (Some token)) as [res Hres].
  rewrite Hres. unfold getProfilePic, graphRequest_get.
  destruct (graph_get W _ _ None); simpl; eexists; eexists; reflexivity.
Qed.

Lemma createMessage_succeeds :
  forall conversation userId content atts fd st, exists st' i,
    createMessage W userAccessToken integration conversation userId content
                  atts fd st = (st', Ok i).
Proof.
  intros conv uid content atts fd st. unfold createMessage.
  destruct (getPageAccessToken_succeeds st) as [s1 [token H1]].
  destruct (getOrCreateCustomer_succeeds uid (i_id integration) token s1)
    as [s2 [customer H2]].
  eexists. eexists.
  eapply bind_Ok_intro; [exact H1 |].
  eapply bind_Ok_intro; [exact H2 |].
  reflexivity.
Qed.

Lemma newConversation_succeeds :
  forall params st,
    truthy (currentPageId st) = true ->
    exists st' c,
      newConversation W userAccessToken integration params st = (st', Ok c).
Proof.
  intros params st Hpage. unfold newConversation.
  destruct (getPageAccessToken_succeeds st) as [s1 [token H1]].
  destruct (getOrCreateCustomer_succeeds (p_senderId params)
              (i_id integration) token s1) as [s2 [customer H2]].
  assert (Hp : currentPageId s2 = currentPageId st).
  { apply quiet_getPageAccessToken in H1.
    apply quiet_getOrCreateCustomer in H2.
    destruct H1 as [_ [_ [P1 _]]]. destruct H2 as [_ [_ [P2 _]]]. congruence. }
  eexists. eexists.
  eapply bind_Ok_intro; [exact H1 |].
  eapply bind_Ok_intro; [exact H2 |].
  eapply bind_Ok_intro; [reflexivity |].
  rewrite Hp, Hpage. reflexivity.
Qed.

(** With a Graph API that answers and the page context set, an event that
    carries no post id is always stored: [getOrCreateConversation] returns
    the id of its message. *)
Lemma getOrCreateConversation_succeeds :
  forall params st,
    truthy (currentPageId st) = true ->
    postId (msgFacebookData params) = None ->
    exists st' i,
      getOrCreateConversation W userAccessToken integration params st
      = (st', Ok i).
Proof.
  intros params st Hpage Hpost. unfold getOrCreateConversation.
  assert (Hres : exists found s1 conv,
             match findSelector params with
             | Some sel => Conversations_findOne sel
             | None => ret None
             end st = (st, Ok found)
             /\ match found with
                | None => newConversation W userAccessToken integration params
                | Some c =>
                    if closedWithHistory c
                    then newConversation W userAccessToken integration params
                    else Conversations_reopen (c_id c)
                end st = (s1, Ok conv)).
  { destruct (newConversation_succeeds params st Hpage) as [s1 [conv Hn]].
    destruct (findSelector params) as [sel |].
    - unfold Conversations_findOne, gets.
      destruct (find (matchConversation sel) (conversations st)) as [c |] eqn:E.
      + destruct (closedWithHistory c) eqn:Ec.
        * exists (Some c), s1, conv. rewrite Ec. auto.
        * apply find_some in E. destruct E as [Hin _].
          destruct (Conversations_reopen_found c st Hin) as [s1' [c1 Hr]].
          exists (Some c), s1', c1. rewrite Ec. auto.
      + exists None, s1, conv. auto.
    - exists None, s1, conv. auto. }
  destruct Hres as [found [s1 [conv [H0 H1]]]].
  destruct (createMessage_succeeds conv (p_senderId params)
              (Some (content params)) (p_attachments params)
              (msgFacebookData params) s1) as [st' [i H3]].
  exists st', i.
  eapply bind_Ok_intro; [exact H0 |].
  eapply bind_Ok_intro; [exact H1 |].
  eapply bind_Ok_intro; [apply restoreParentPost_without_post; exact Hpost |].
  exact H3.
Qed.

(** So every messenger event with a message is either stored or skipped as
    already stored; it never fails. *)
Lemma getOrCreateConversationByMessenger_succeeds :
  forall event msg st,
    ev_message event = Some msg ->
    truthy (currentPageId st) = true ->
    exists st' r,
      getOrCreateConversationByMessenger W userAccessToken integration event st
      = (st', Ok r).
Proof.
  intros event msg st Hmsg Hpage.
  unfold getOrCreateConversationByMessenger. rewrite Hmsg.
  unfold bind at 1. unfold ConversationMessages_findOne, gets.
  destruct (find _ (messages st)); [eexists; eexists; reflexivity |].
  destruct (getOrCreateConversation_succeeds (messengerParams event msg) st
              Hpage eq_refl) as [st' [i H]].
  exists st', Undefined. eapply bind_Ok_intro; [exact H | reflexivity].
Qed.

End Success.

(** * Further properties of the tracker *)

(** ** Feed events that store nothing *)

(** X1: a feed event whose verb is not ["add"] (an edit, a removal, a like
    taken back) is ignored: [null] is returned and the state is what it
    was. *)
Theorem getOrCreateConversationByFeed_ignores_other_verbs :
  forall W userAccessToken integration integrationData value st,
    i_facebookData integration = Some integrationData ->
    verb value <> Some "add" ->
    getOrCreateConversationByFeed W userAccessToken integration value st
    = (st, Ok Null).
Proof.
  intros W tok integ fd value st Hfd Hverb.
  unfold getOrCreateConversationByFeed. rewrite Hfd.
  destruct (ostring_eqb_spec (verb value) (Some "add")) as [E | _].
  - contradiction.
  - reflexivity.
Qed.

Lemma getOrCreateConversationByFeed_ignores_other_verbs_witness :
  getOrCreateConversationByFeed Sample.world "USER-TOKEN" Sample.integration
                                Sample2.unlike Sample.loved
  = (Sample.loved, Ok Null).
Proof.
  apply (@getOrCreateConversationByFeed_ignores_other_verbs
           Sample.world "USER-TOKEN" Sample.integration
           (mkFacebookIntegration ["page1"] "account1") Sample2.unlike
           Sample.loved).
  - reflexivity.
  - discriminate.
Defined.

(** X2: an added like or reaction delivered through the feed only patches
    the [facebookData] of the messages its selector matches: no message,
    conversation or customer is created, nothing is logged or published and
    the Graph API is not asked. *)
Theorem getOrCreateConversationByFeed_reaction_only_patches :
  forall W userAccessToken integration integrationData value st,
    i_facebookData integration = Some integrationData ->
    verb value = Some "add" ->
    item value = Some "like" \/ item value = Some "reaction" ->
    exists f,
      getOrCreateConversationByFeed W userAccessToken integration value st
      = (set_messages
           (map (fun m => if matchMessage (reactionSelector value) m
                          then with_facebookData f m else m))
           st,
         Ok Undefined).
Proof.
  intros W tok integ fd value st Hfd Hverb Hitem.
  unfold getOrCreateConversationByFeed. rewrite Hfd, Hverb.
  destruct Hitem as [Hi | Hi]; rewrite Hi; simpl.
  - unfold handleReactions, updateLikeCount. rewrite Hi, Hverb. simpl.
    eexists. reflexivity.
  - unfold handleReactions, updateReactions. rewrite Hi, Hverb. simpl.
    eexists. reflexivity.
Qed.

Lemma getOrCreateConversationByFeed_reaction_only_patches_witness :
  exists f,
    getOrCreateConversationByFeed Sample.world "USER-TOKEN" Sample.integration
                                  Sample.like Sample.thread
    = (set_messages
         (map (fun m => if matchMessage (reactionSelector Sample.like) m
                        then with_facebookData f m else m))
         Sample.thread,
       Ok Undefined).
Proof.
  apply (@getOrCreateConversationByFeed_reaction_only_patches
           Sample.world "USER-TOKEN" Sample.integration
           (mkFacebookIntegration ["page1"] "account1") Sample.like
           Sample.thread).
  - reflexivity.
  - reflexivity.
  - left. reflexivity.
Defined.

(** X3: a like that carries neither a [post_id] nor a [comment_id] runs
    with the empty selector, which matches every stored message: the like
    count of all of them changes. *)
Theorem handleReactions_without_ids_hits_every_message :
  forall reactionParams st,
    post_id reactionParams = None ->
    comment_id reactionParams = None ->
    item reactionParams = Some "like" ->
    handleReactions reactionParams st
    = (set_messages
         (map (with_facebookData
                 (inc_likeCount
                    (if ostring_eqb (verb reactionParams) (Some "add")
                     then 1%Z else (-1)%Z))))
         st,
       Ok Undefined).
Proof.
  intros rp st Hp Hc Hi.
  unfold handleReactions, reactionSelector, updateLikeCount.
  rewrite Hp, Hc, Hi. reflexivity.
Qed.

Lemma handleReactions_without_ids_hits_every_message_witness :
  map likeCountOf
      (messages (fst (handleReactions Sample2.stray_like Sample.thread)))
  = [1%Z; 1%Z]
  /\ handleReactions Sample2.stray_like Sample.thread
     = (set_messages (map (with_facebookData (inc_likeCount 1%Z)))
                     Sample.thread,
        Ok Undefined).
Proof.
  split; [reflexivity |].
  exact (@handleReactions_without_ids_hits_every_message
           Sample2.stray_like Sample.thread eq_refl eq_refl eq_refl).
Defined.

(** ** Likes and reactions undone *)

Lemma map_map_if :
  forall (test : Message -> bool) (f g : MsgFacebook -> MsgFacebook) l,
    (forall m, test (with_facebookData f m) = test m) ->
    map (fun m => if test m then with_facebookData g m else m)
        (map (fun m => if test m then with_facebookData f m else m) l)
    = map (fun m => if test m
                    then with_facebookData (fun fd => g (f fd)) m else m) l.
Proof.
  intros test f g l H. rewrite map_map. apply map_ext. intros m.
  destruct (test m) eqn:E.
  - rewrite H, E. reflexivity.
  - rewrite E. reflexivity.
Qed.

(** X4: a like that is added and then taken back (any verb other than
    ["add"] counts down) leaves the like count of every message where it
    was, a missing counter counting as zero; no message appears or
    disappears. *)
Theorem updateLikeCount_add_then_remove :
  forall type selector st,
    type <> Some "add" ->
    map likeCountOf
        (messages (fst (updateLikeCount type selector
                          (fst (updateLikeCount (Some "add") selector st)))))
    = map likeCountOf (messages st)
    /\ map m_id
         (messages (fst (updateLikeCount type selector
                           (fst (updateLikeCount (Some "add") selector st)))))
       = map m_id (messages st).
Proof.
  intros type sel st Htype. unfold updateLikeCount.
  destruct (ostring_eqb_spec type (Some "add")) as [E | _]; [contradiction |].
  simpl. rewrite map_map_if by reflexivity. rewrite !map_map.
  split; apply map_ext; intros m; destruct (matchMessage sel m);
    try reflexivity.
  unfold likeCountOf. simpl. destruct (likeCount (m_facebookData m)); lia.
Qed.

Lemma updateLikeCount_add_then_remove_witness :
  map likeCountOf
      (messages (fst (updateLikeCount (Some "remove") (commentSelector "c1")
                        (fst (updateLikeCount (Some "add")
                                (commentSelector "c1") Sample.thread)))))
  = map likeCountOf (messages Sample.thread).
Proof.
  assert (H : Some "remove" <> Some "add") by discriminate.
  exact (proj1 (@updateLikeCount_add_then_remove (Some "remove")
                  (commentSelector "c1") Sample.thread H)).
Defined.

Lemma reactionsOf_push_reaction :
  forall reactionType u r,
    reactionsOf reactionType (push_reaction reactionType u r)
    = reactionsOf reactionType r ++ [u].
Proof.
  intros rt u r. induction r as [| [k us] r IH]; simpl.
  - rewrite String.eqb_refl. reflexivity.
  - destruct (String.eqb k rt) eqn:E; simpl; rewrite E.
    + reflexivity.
    + exact IH.
Qed.

Lemma filter_all :
  forall A (f : A -> bool) l,
    (forall a, In a l -> f a = true) -> filter f l = l.
Proof.
  intros A f l. induction l as [| a l IH]; intros H; simpl.
  - reflexivity.
  - rewrite (H a (or_introl eq_refl)). f_equal. apply IH.
    intros b Hb. apply H. right. exact Hb.
Qed.

(** X5: a reaction that is added and then removed leaves the reactors of
    that reaction type on every message as they were, provided the actor
    had not reacted to the matching messages before. *)
Theorem updateReactions_add_then_remove :
  forall type selector reactionType actor st,
    type <> Some "add" ->
    (forall m u,
        In m (messages st) -> matchMessage selector m = true ->
        In (Some u) (reactionsOf reactionType (reactions (m_facebookData m))) ->
        fb_id u <> fb_id actor) ->
    map (fun m => reactionsOf reactionType (reactions (m_facebookData m)))
        (messages
           (fst (updateReactions type selector reactionType (Some actor)
                   (fst (updateReactions (Some "add") selector reactionType
                           (Some actor) st)))))
    = map (fun m => reactionsOf reactionType (reactions (m_facebookData m)))
          (messages st).
Proof.
  intros type sel rt actor st Htype Hnew. unfold updateReactions.
  destruct (ostring_eqb_spec type (Some "add")) as [E | _]; [contradiction |].
  simpl. rewrite map_map_if by reflexivity. rewrite map_map.
  apply map_ext_in. intros m Hin.
  destruct (matchMessage sel m) eqn:Em; [| reflexivity].
  simpl. rewrite reactionsOf_pull_reaction, reactionsOf_push_reaction.
  rewrite filter_app. simpl. rewrite String.eqb_refl. simpl.
  rewrite app_nil_r. apply filter_all. intros [u |] Hu; [| reflexivity].
  cbn [hasId]. apply negb_true_iff, String.eqb_neq. eapply Hnew; eauto.
Qed.

Lemma updateReactions_add_then_remove_witness :
  map (fun m => reactionsOf "love" (reactions (m_facebookData m)))
      (messages
         (fst (updateReactions (Some "remove") (commentSelector "c1") "love"
                 (Some Sample.bob)
                 (fst (updateReactions (Some "add") (commentSelector "c1")
                         "love" (Some Sample.bob) Sample.thread)))))
  = map (fun m => reactionsOf "love" (reactions (m_facebookData m)))
        (messages Sample.thread).
Proof.
  apply (@updateReactions_add_then_remove (Some "remove")
           (commentSelector "c1") "love" Sample.bob Sample.thread).
  - discriminate.
  - intros m u [E | [E | []]] _ Hu; subst m; destruct Hu.
Defined.

(** ** Post metadata *)

(** X6: [generatePostParams] always flags the document as a post under the
    given post id, and files the link under exactly one of [video], [photo]
    and [link]: video when a [video_id] comes with it, else photo when a
    [photo_id] does, else a plain link; without a link none of the three is
    set. *)
Theorem generatePostParams_discriminator :
  forall postParams,
    let doc := generatePostParams postParams in
    postId doc = post_id postParams
    /\ isPost doc = true
    /\ commentId doc = None
    /\ (fbvideo doc, fbphoto doc, fblink doc)
       = (if truthy (link postParams) then
            if truthy (video_id postParams)
            then (link postParams, None, None)
            else if truthy (photo_id postParams)
            then (None, link postParams, None)
            else (None, None, link postParams)
          else (None, None, None)).
Proof.
  intros p. unfold generatePostParams.
  destruct (truthy (link p)), (truthy (video_id p)), (truthy (photo_id p)),
    (truthy (created_time p)), (photos p); repeat split.
Qed.

(** ** Customers are looked up before they are created *)

(** X7: [getOrCreateCustomer] is a lookup with insertion: after a
    successful call, a second call for the same user, whatever the Graph
    API, the integration id and the token, returns the same customer and
    leaves the state untouched: no request, no second customer, no log. *)
Theorem getOrCreateCustomer_again :
  forall W1 W2 fbUserId integrationId1 integrationId2 token1 token2
         st st1 customer,
    getOrCreateCustomer W1 fbUserId integrationId1 token1 st
    = (st1, Ok customer) ->
    getOrCreateCustomer W2 fbUserId integrationId2 token2 st1
    = (st1, Ok customer)
    /\ cu_facebookId customer = fbUserId.
Proof.
  intros W1 W2 uid i1 i2 t1 t2 st st1 c H.
  assert (Hfind : find (fun c0 => String.eqb (cu_facebookId c0) uid)
                       (customers st1) = Some c).
  { unfold getOrCreateCustomer in H.
    apply bind_Ok_inv in H. destruct H as [found [s0 [F H]]].
    inversion F; subst s0 found; clear F.
    destruct (find _ (customers st)) as [c0 |] eqn:E.
    - inversion H; subst. exact E.
    - apply bind_Ok_inv in H. destruct H as [res [sa [_ H]]].
      apply bind_Ok_inv in H. destruct H as [pic [sb [_ H]]].
      inversion H; subst; clear H. simpl. rewrite String.eqb_refl.
      reflexivity. }
  split.
  - unfold getOrCreateCustomer, bind, Customers_findOne, gets.
    rewrite Hfind. reflexivity.
  - apply find_some in Hfind. destruct Hfind as [_ E].
    apply String.eqb_eq in E. exact E.
Qed.

Lemma getOrCreateCustomer_again_witness :
  getOrCreateCustomer Sample2.expired "100" "integration2"
                      (RString "another token") Sample.after_hi
  = (Sample.after_hi,
     Ok (mkCustomer 0 (Some "John Smith") "" "integration1" "" "100"))
  /\ cu_facebookId (mkCustomer 0 (Some "John Smith") "" "integration1" ""
                               "100") = "100".
Proof.
  assert (H : getOrCreateCustomer Sample.world "100" "integration1"
                Sample.token_response Sample.after_hi
              = (Sample.after_hi,
                 Ok (mkCustomer 0 (Some "John Smith") "" "integration1" ""
                                "100")))
    by (vm_compute; reflexivity).
  exact (@getOrCreateCustomer_again Sample.world Sample2.expired "100"
           "integration1" "integration2" Sample.token_response
           (RString "another token") Sample.after_hi Sample.after_hi _ H).
Defined.

(** X8: the picture request of [getOrCreateCustomer] cannot make it fail:
    when no customer is stored and the profile request succeeds, a customer
    is created, whose avatar is the [location] of the picture response when
    that has an [image], and the empty string otherwise, also when the
    picture request is rejected. *)
Theorem getOrCreateCustomer_avatar :
  forall W fbUserId integrationId token st res,
    find (fun c => String.eqb (cu_facebookId c) fbUserId) (customers st)
    = None ->
    graph_get W (length (requests st)) (Some (String.append "/" fbUserId))
              (Some token)
    = Ok res ->
    exists st' customer,
      getOrCreateCustomer W fbUserId integrationId token st
      = (st', Ok customer)
      /\ cu_avatar customer
         = match graph_get W (S (length (requests st)))
                   (Some (String.append "/"
                            (String.append fbUserId "/picture?height=600")))
                   None with
           | Ok response =>
               if truthy (image (fields response))
               then orDefault (location (fields response)) ""
               else ""
           | Err _ => ""
           end.
Proof.
  intros W uid iid token st res Hmiss Hres.
  unfold getOrCreateCustomer, bind, Customers_findOne, gets.
  rewrite Hmiss. unfold graphRequest_get at 1. rewrite Hres.
  unfold getProfilePic, graphRequest_get. simpl.
  destruct (graph_get W (S (length (requests st))) _ None) as [pic | e];
    simpl; eexists; eexists; (split; [reflexivity |]); simpl.
  - destruct (truthy (image (fields pic))); reflexivity.
  - reflexivity.
Qed.

Lemma getOrCreateCustomer_avatar_witness :
  exists st' customer,
    getOrCreateCustomer Sample.world "100" "integration1"
                        Sample.token_response Sample.empty
    = (st', Ok customer)
    /\ cu_avatar customer = "".
Proof.
  exact (@getOrCreateCustomer_avatar Sample.world "100" "integration1"
           Sample.token_response Sample.empty
           (Sample.profile None None (Some "John Smith")) eq_refl eq_refl).
Defined.

(** ** One customer per Facebook user *)





Section UniqueCustomers.

Variable W : World.
Variable userAccessToken : string.
Variable integration : Integration.













End UniqueCustomers.



(** ** Storing a message *)

Lemma unpublished_refl : forall st, unpublished st st.
Proof. intros st. reflexivity. Qed.

Lemma unpublished_trans :
  forall a b c, unpublished a b -> unpublished b c -> unpublished a c.
Proof. unfold unpublished. intros a b c H1 H2. congruence. Qed.

Ltac nothing_published :=
  first
    [ apply (@preserves_gets _ unpublished_refl)
    | apply preserves_modify; intros ?; reflexivity
    | let H := fresh "H" in
      intros ? ? ? H; inversion H; subst; reflexivity ].

Section Storing.

Variable W : World.
Variable userAccessToken : string.
Variable integration : Integration.


Lemma unpublished_getProfilePic :
  forall fbId, preserves unpublished (getProfilePic W fbId).
Proof.
  intros fbId st st' r H. unfold getProfilePic, graphRequest_get in H.
  destruct (graph_get W _ _ None); inversion H; subst; reflexivity.
Qed.

Lemma unpublished_getOrCreateCustomer :
  forall fbUserId integrationId token,
    preserves unpublished (getOrCreateCustomer W fbUserId integrationId token).
Proof.
  intros uid iid token. unfold getOrCreateCustomer, Customers_findOne.
  preserve_with unpublished_refl unpublished_trans;
    try apply unpublished_getProfilePic; nothing_published.
Qed.



(** X11: [createMessageFromComments] leaves the loop at the first comment
    without an id: the comments listed after it are not looked at, and the
    run is the run on the comments before it. *)
Theorem createMessageFromComments_stops_at_missing_id :
  forall conversation userId before comment after st,
    truthy (id comment) = false ->
    createMessageFromComments W userAccessToken integration conversation
      userId (before ++ comment :: after) st
    = createMessageFromComments W userAccessToken integration conversation
        userId before st.
Proof.
  intros conv uid pre c post st Hid. revert st.
  induction pre as [| a pre IH]; intros st.
  - cbn [app createMessageFromComments].
    destruct (id c) as [cid |]; [| reflexivity].
    rewrite Hid. reflexivity.
  - cbn [app createMessageFromComments].
    destruct (id a) as [aid |]; [| reflexivity].
    destruct (truthy (Some aid)); [| reflexivity].
    unfold bind at 1 3. unfold ConversationMessages_findOne, gets.
    destruct (find _ (messages st)); [apply IH |].
    destruct (from a) as [sender |]; [| reflexivity].
    unfold bind at 1 2.
    destruct (createMessage W userAccessToken integration conv uid _ _ _ st)
      as [s1 [i | e]]; [apply IH | reflexivity].
Qed.

End Storing.



Lemma createMessageFromComments_stops_at_missing_id_witness :
  createMessageFromComments Sample.world "USER-TOKEN" Sample.integration
    Sample.post_conversation "200" Sample2.nameless_first
    Sample.bare_conversation
  = (Sample.bare_conversation, Ok Undefined).
Proof.
  exact (@createMessageFromComments_stops_at_missing_id
           Sample.world "USER-TOKEN" Sample.integration
           Sample.post_conversation "200" []
           (Sample.object_with None None (Some Sample.alice)
              (Some "a comment") None None None None None None)
           [Sample.object_with (Some "c2") (Some "c1") (Some Sample.bob)
              (Some "a reply") None None None None None None]
           Sample.bare_conversation eq_refl).
Defined.

(** ** Events that are not stored *)

(** X12: messenger events without a [message] (delivery and read receipts,
    postbacks) are passed over: a list of such events leaves the state as it
    was. *)
Theorem viaMessengerEvent_ignores_events_without_message :
  forall W userAccessToken integration events st,
    Forall (fun event => ev_message event = None) events ->
    viaMessengerEvent W userAccessToken integration events st = (st, Ok tt).
Proof.
  intros W tok integ events st H. induction H as [| e es He _ IH].
  - reflexivity.
  - simpl. rewrite He. exact IH.
Qed.

Lemma viaMessengerEvent_ignores_events_without_message_witness :
  viaMessengerEvent Sample.world "USER-TOKEN" Sample.integration
    [mkMessagingEvent Sample.alice "page1" None;
     mkMessagingEvent Sample.bob "page1" None]
    Sample.after_hi
  = (Sample.after_hi, Ok tt).
Proof.
  apply viaMessengerEvent_ignores_events_without_message.
  repeat constructor.
Defined.

Section NoPage.

Variable W : World.
Variable userAccessToken : string.
Variable integration : Integration.

Lemma newConversation_without_page :
  forall params st st' r,
    truthy (currentPageId st) = false ->
    newConversation W userAccessToken integration params st = (st', r) ->
    (exists e, r = Err e)
    /\ conversations st' = conversations st
    /\ messages st' = messages st
    /\ (answers W ->
        r = Err "getOrCreateConversation: Couldn't set current page id").
Proof.
  intros params st st' r Hpage H. unfold newConversation in H.
  destruct (bind_inv _ _ _ H) as [[e [H1 Hr]] | [token [s1 [H1 H']]]];
    clear H.
  { pose proof H1 as Q. apply quiet_getPageAccessToken in Q.
    destruct Q as [M [C _]]. repeat split; eauto.
    intros Ha. destruct (getPageAccessToken_succeeds userAccessToken Ha st)
      as [sx [rx Hx]]. congruence. }
  pose proof H1 as Q1. apply quiet_getPageAccessToken in Q1.
  destruct Q1 as [M1 [C1 [P1 _]]].
  destruct (bind_inv _ _ _ H') as [[e [H2 Hr]] | [customer [s2 [H2 H]]]];
    clear H'.
  { pose proof H2 as Q. apply quiet_getOrCreateCustomer in Q.
    destruct Q as [M [C _]]. repeat split; eauto; try congruence.
    intros Ha.
    destruct (getOrCreateCustomer_succeeds Ha (p_senderId params)
                (i_id integration) token s1) as [sx [rx Hx]]. congruence. }
  pose proof H2 as Q2. apply quiet_getOrCreateCustomer in Q2.
  destruct Q2 as [M2 [C2 [P2 _]]].
  unfold bind at 1 in H. unfold gets in H.
  assert (E : truthy (currentPageId s2) = false) by congruence.
  rewrite E in H. inversion H; subst; clear H.
  repeat split; eauto; congruence.
Qed.

(** X13: an event that needs a new conversation (it carries no selector,
    or its selector finds no conversation, or the conversation found is
    closed and has more than one message) while the page context is not set
    is never stored: [getOrCreateConversation] throws, and neither a
    conversation nor a message is stored; when the Graph API answers, the
    error is the one about the current page id. *)
Theorem getOrCreateConversation_without_page :
  forall params st st' r,
    match findSelector params with
    | None => True
    | Some sel =>
        match find (matchConversation sel) (conversations st) with
        | None => True
        | Some c => closedWithHistory c = true
        end
    end ->
    truthy (currentPageId st) = false ->
    getOrCreateConversation W userAccessToken integration params st
    = (st', r) ->
    (exists e, r = Err e)
    /\ conversations st' = conversations st
    /\ messages st' = messages st
    /\ (answers W ->
        r = Err "getOrCreateConversation: Couldn't set current page id").
Proof.
  intros params st st' r Hsel Hpage H.
  unfold getOrCreateConversation in H.
  unfold bind at 1 in H.
  assert (Hnew : bind (newConversation W userAccessToken integration params)
                   (fun conversation =>
                      restoreParentPost W userAccessToken integration
                        conversation (p_senderId params)
                        (msgFacebookData params) ;;;
                      createMessage W userAccessToken integration
                        conversation (p_senderId params)
                        (Some (content params)) (p_attachments params)
                        (msgFacebookData params)) st
                 = (st', r)).
  { destruct (findSelector params) as [sel |].
    - unfold Conversations_findOne, gets in H.
      destruct (find (matchConversation sel) (conversations st)) as [c |].
      + rewrite Hsel in H. exact H.
      + exact H.
    - exact H. }
  clear H Hsel. rename Hnew into H.
  destruct (bind_inv _ _ _ H) as [[e [H1 Hr]] | [conv [s1 [H1 _]]]].
  - subst r. apply newConversation_without_page in H1; [| exact Hpage].
    destruct H1 as [_ [Hc [Hm Ha]]]. repeat split; eauto.
    intros HW. specialize (Ha HW). congruence.
  - apply newConversation_without_page in H1; [| exact Hpage].
    destruct H1 as [[e He] _]. discriminate.
Qed.

End NoPage.

Lemma getOrCreateConversation_without_page_witness :
  (exists e,
      snd (getOrCreateConversation Sample.world "USER-TOKEN"
             Sample.integration Sample.answer_params Sample2.closed_pageless)
      = Err e)
  /\ conversations
       (fst (getOrCreateConversation Sample.world "USER-TOKEN"
               Sample.integration Sample.answer_params
               Sample2.closed_pageless))
     = conversations Sample2.closed_pageless
  /\ messages
       (fst (getOrCreateConversation Sample.world "USER-TOKEN"
               Sample.integration Sample.answer_params
               Sample2.closed_pageless))
     = messages Sample2.closed_pageless.
Proof.
  destruct (@getOrCreateConversation_without_page
              Sample.world "USER-TOKEN" Sample.integration
              Sample.answer_params Sample2.closed_pageless _ _
              eq_refl eq_refl (surjective_pairing _))
    as [He [Hc [Hm _]]].
  repeat split; assumption.
Defined.

(** ** What a feed event stores *)

Section FeedEvents.

Variable W : World.
Variable userAccessToken : string.
Variable integration : Integration.

Lemma newConversation_page :
  forall params st st1 c,
    newConversation W userAccessToken integration params st = (st1, Ok c) ->
    conversations st1 = c :: conversations st
    /\ c_status c = status params
    /\ c_facebookData c
       = Some (with_pageId (facebookData params) (currentPageId st)).
Proof.
  intros params st st1 c H. unfold newConversation in H.
  apply bind_Ok_inv in H. destruct H as [token [sa [H1 H]]].
  apply bind_Ok_inv in H. destruct H as [customer [sb [H2 H]]].
  apply quiet_getPageAccessToken in H1. destruct H1 as [_ [C1 [P1 _]]].
  apply quiet_getOrCreateCustomer in H2. destruct H2 as [_ [C2 [P2 _]]].
  apply bind_Ok_inv in H. destruct H as [pageId [sc [H3 H]]].
  inversion H3; subst; clear H3.
  destruct (negb (truthy (currentPageId sc))); [discriminate |].
  inversion H; subst; clear H. simpl.
  rewrite C2, C1, P2, P1. repeat split.
Qed.

(** X14: every feed event that is stored (a post or a comment; likes and
    reactions apart) opens a conversation of its own: no stored conversation
    is looked up, and one new conversation is put in front of the others,
    of kind FEED, on the current page, under the post id the Graph API
    returned, and with the event's message as its newest message.  The
    conversation is CLOSED when the sender is one of the integration's own
    pages and NEW otherwise. *)
Theorem feed_event_opens_conversation :
  forall integrationData value author st st',
    i_facebookData integration = Some integrationData ->
    from value = Some author ->
    ostring_eqb (item value) (Some "like")
    || ostring_eqb (item value) (Some "reaction") = false ->
    getOrCreateConversationByFeed W userAccessToken integration value st
    = (st', Ok Undefined) ->
    exists cid tokenResponse postResponse m older,
      graph_get W (length (requests st))
        (Some (String.append (template (currentPageId st) "null")
                             "/?fields=access_token"))
        (Some (RString userAccessToken))
      = Ok tokenResponse
      /\ graph_get W (S (length (requests st))) (post_id value)
           (option_map RString (access_token (fields tokenResponse)))
         = Ok postResponse
      /\ map conv_key (conversations st')
         = (cid,
            (if includes (pageIds integrationData) (fb_id author)
             then CLOSED else NEW),
            Some (mkConvFacebook FEED (Some (fb_id author)) (fb_name author)
                                 None (id (fields postResponse))
                                 (currentPageId st)))
             :: map conv_key (conversations st)
      /\ messages st' = m :: older ++ messages st
      /\ m_conversationId m = cid
      /\ m_content m = Some (orDefault (message value) "...").
Proof.
  intros fd value author st st' Hfd Hfrom Hitem H.
  unfold getOrCreateConversationByFeed in H. rewrite Hfd in H.
  destruct (negb (ostring_eqb (verb value) (Some "add"))); [discriminate |].
  apply bind_Ok_inv in H. destruct H as [found [s0 [F H]]].
  assert (E0 : s0 = st).
  { destruct (ostring_eqb (item value) (Some "comment")
              && truthy (comment_id value)); inversion F; reflexivity. }
  subst s0. clear F.
  destruct found; [discriminate |].
  rewrite Hitem, Hfrom in H.
  apply bind_Ok_inv in H. destruct H as [resp [sa [Ha H]]].
  pose proof Ha as Qa. apply quiet_getPageAccessToken in Qa.
  destruct Qa as [Ma [Ca [Pa _]]].
  unfold getPageAccessToken, bind, gets, graphRequest_get in Ha.
  injection Ha as Esa Eresp.
  destruct (isRequestError resp); [discriminate |].
  apply bind_Ok_inv in H. destruct H as [post [sb [Hb H]]].
  pose proof Hb as Qb. apply quiet_graphRequest_get in Qb.
  destruct Qb as [Mb [Cb [Pb _]]].
  unfold graphRequest_get in Hb. injection Hb as Esb Epost.
  assert (El : length (requests sa) = S (length (requests st)))
    by (rewrite <- Esa; reflexivity).
  rewrite El in Epost.
  apply bind_Ok_inv in H. destruct H as [i [sc [H R]]].
  inversion R; subst sc; clear R.
  unfold getOrCreateConversation in H. cbn [findSelector] in H.
  apply bind_Ok_inv in H. destruct H as [none [sd [F H]]].
  inversion F; subst sd none; clear F.
  apply bind_Ok_inv in H. destruct H as [conv [s1 [H1 H]]].
  pose proof H1 as N1. apply newConversation_Ok in N1.
  destruct N1 as [_ [M1 _]].
  apply newConversation_page in H1. destruct H1 as [C1 [S1 F1]].
  apply bind_Ok_inv in H. destruct H as [restored [s2 [H2 H]]].
  apply appends_restoreParentPost in H2.
  pose proof H as A3. apply appends_createMessage in A3.
  destruct (appends_trans H2 A3) as [_ [K _]].
  destruct H2 as [[older Holder] _].
  apply createMessage_Ok in H. destruct H as [m [Hm [_ [Hconv [Hcont _]]]]].
  exists (c_id conv), resp, post, m, older.
  split; [exact Eresp |]. split; [exact Epost |].
  split; [| split; [| split; [exact Hconv | exact Hcont]]].
  - rewrite K, C1. cbn [map]. unfold conv_key at 1.
    rewrite S1, F1, Cb, Ca, Pb, Pa. reflexivity.
  - rewrite Hm, Holder, M1, Mb, Ma. reflexivity.
Qed.

(** X15: when the page access token has expired (the token request answers
    with the bare string 'Error processing https request'), a feed post or
    comment is rejected with an error after that single request: nothing is
    stored and no customer is created. *)
Theorem feed_event_with_expired_token :
  forall integrationData value author st,
    i_facebookData integration = Some integrationData ->
    verb value = Some "add" ->
    from value = Some author ->
    ostring_eqb (item value) (Some "like")
    || ostring_eqb (item value) (Some "reaction") = false ->
    (ostring_eqb (item value) (Some "comment") && truthy (comment_id value)
     = true ->
     find (matchMessage (mkMsgSelector None None None (comment_id value) None))
          (messages st) = None) ->
    graph_get W (length (requests st))
      (Some (String.append (template (currentPageId st) "null")
                           "/?fields=access_token"))
      (Some (RString userAccessToken))
    = Ok (RString "Error processing https request") ->
    getOrCreateConversationByFeed W userAccessToken integration value st
    = (add_request
         (GraphGet
            (Some (String.append (template (currentPageId st) "null")
                                 "/?fields=access_token"))
            (Some (RString userAccessToken)))
         st,
       Err "getOrCreateConversationByFeed: Couldn't get Page access token").
Proof.
  intros fd value author st Hfd Hverb Hfrom Hitem Hnew Htoken.
  unfold getOrCreateConversationByFeed. rewrite Hfd, Hverb.
  change (negb (ostring_eqb (Some "add") (Some "add"))) with false.
  cbv iota zeta.
  assert (F : (if ostring_eqb (item value) (Some "comment")
                  && truthy (comment_id value)
               then ConversationMessages_findOne
                      (mkMsgSelector None None None (comment_id value) None)
               else ret None) st = (st, Ok None)).
  { destruct (ostring_eqb (item value) (Some "comment")
              && truthy (comment_id value)); [| reflexivity].
    unfold ConversationMessages_findOne, gets. rewrite Hnew; reflexivity. }
  unfold bind at 1. rewrite F. rewrite Hitem, Hfrom.
  unfold bind at 1. unfold getPageAccessToken, bind, gets, graphRequest_get.
  rewrite Htoken. reflexivity.
Qed.

End FeedEvents.

Lemma feed_event_opens_conversation_witness :
  exists cid tokenResponse postResponse m older,
    graph_get Sample.world (length (requests Sample.after_hi))
      (Some "page1/?fields=access_token") (Some (RString "USER-TOKEN"))
    = Ok tokenResponse
    /\ graph_get Sample.world (S (length (requests Sample.after_hi)))
         (Some "p1-raw")
         (option_map RString (access_token (fields tokenResponse)))
       = Ok postResponse
    /\ map conv_key (conversations Sample2.after_own_status)
       = (cid, CLOSED,
          Some (mkConvFacebook FEED (Some "page1") (Some "Our page") None
                               (id (fields postResponse)) (Some "page1")))
           :: map conv_key (conversations Sample.after_hi)
    /\ messages Sample2.after_own_status
       = m :: older ++ messages Sample.after_hi
    /\ m_conversationId m = cid
    /\ m_content m = Some "News".
Proof.
  assert (H : getOrCreateConversationByFeed Sample.world "USER-TOKEN"
                Sample.integration Sample2.own_status Sample.after_hi
              = (Sample2.after_own_status, Ok Undefined))
    by (vm_compute; reflexivity).
  exact (@feed_event_opens_conversation Sample.world "USER-TOKEN"
           Sample.integration (mkFacebookIntegration ["page1"] "account1")
           Sample2.own_status Sample.page Sample.after_hi
           Sample2.after_own_status eq_refl eq_refl eq_refl H).
Defined.

Lemma feed_event_with_expired_token_witness :
  getOrCreateConversationByFeed Sample2.expired "USER-TOKEN"
    Sample.integration Sample2.own_status Sample.after_hi
  = (add_request
       (GraphGet (Some "page1/?fields=access_token")
                 (Some (RString "USER-TOKEN")))
       Sample.after_hi,
     Err "getOrCreateConversationByFeed: Couldn't get Page access token").
Proof.
  apply (@feed_event_with_expired_token Sample2.expired "USER-TOKEN"
           Sample.integration (mkFacebookIntegration ["page1"] "account1")
           Sample2.own_status Sample.page Sample.after_hi);
    try reflexivity.
  discriminate.
Defined.

(** ** Redelivery of a messenger delivery *)

Lemma grows_refl : forall st, grows st st.
Proof. intros st. split; auto. Qed.

Lemma grows_trans : forall a b c, grows a b -> grows b c -> grows a c.
Proof.
  intros a b c [H1 P1] [H2 P2]. split; [auto | congruence].
Qed.

Lemma appends_grows : forall st st', appends st st' -> grows st st'.
Proof.
  intros st st' A. split.
  - intros m Hm. eapply appends_message_kept; eauto.
  - destruct A as [_ [_ [P _]]]. exact P.
Qed.

Lemma appends_to_grows :
  forall A (m : M A), preserves appends m -> preserves grows m.
Proof. intros A m. apply preserves_weaken. exact appends_grows. Qed.

Lemma quiet_to_grows :
  forall A (m : M A), preserves quiet m -> preserves grows m.
Proof. intros A m H. apply appends_to_grows, quiet_to_appends, H. Qed.

Lemma set_currentPageId_same :
  forall st, set_currentPageId (currentPageId st) st = st.
Proof. intros st. destruct st. reflexivity. Qed.

Lemma pageAfter_idempotent :
  forall integrationData entries page,
    pageAfter integrationData entries
              (pageAfter integrationData entries page)
    = pageAfter integrationData entries page.
Proof.
  intros fd entries. induction entries as [| e rest IH]; intros page; simpl.
  - reflexivity.
  - destruct (negb (includes (pageIds fd) (entry_id e))) eqn:E.
    + reflexivity.
    + clear IH. generalize (Some (entry_id e)). clear E.
      induction rest as [| e' rest' IH']; intros q; simpl.
      * reflexivity.
      * destruct (negb (includes (pageIds fd) (entry_id e'))).
        -- reflexivity.
        -- apply IH'.
Qed.

Section MessengerRedelivery.

Variable W : World.
Variable userAccessToken : string.
Variable integration : Integration.

Lemma grows_getOrCreateConversation :
  forall params,
    preserves grows
      (getOrCreateConversation W userAccessToken integration params).
Proof.
  intros params.
  unfold getOrCreateConversation, newConversation, Conversations_findOne.
  preserve_with grows_refl grows_trans;
    try (apply quiet_to_grows, quiet_getPageAccessToken);
    try (apply quiet_to_grows, quiet_getOrCreateCustomer);
    try (apply appends_to_grows, appends_restoreParentPost);
    try (apply appends_to_grows, appends_createMessage);
    try (apply preserves_modify; intros s; split; auto).
  all: intros s s' r H; unfold Conversations_reopen in H;
    try destruct (find _ (conversations s));
    inversion H; subst; split; auto.
Qed.

Lemma grows_getOrCreateConversationByMessenger :
  forall event,
    preserves grows
      (getOrCreateConversationByMessenger W userAccessToken integration event).
Proof.
  intros event.
  unfold getOrCreateConversationByMessenger, ConversationMessages_findOne.
  preserve_with grows_refl grows_trans.
  apply grows_getOrCreateConversation.
Qed.

Lemma grows_viaMessengerEvent :
  forall events,
    preserves grows (viaMessengerEvent W userAccessToken integration events).
Proof.
  intros events. induction events as [| event rest IH]; simpl.
  - apply (@preserves_ret _ grows_refl).
  - preserve_with grows_refl grows_trans;
      apply grows_getOrCreateConversationByMessenger.
Qed.

(** The loop of [start] over entries without changes loses no message and
    ends with the page context [pageAfter] computes. *)
Lemma startEntries_messenger_only :
  forall integrationData entries st st1 r,
    Forall (fun e => changes e = None) entries ->
    startEntries W userAccessToken integration integrationData entries st
    = (st1, r) ->
    (forall m, In m (messages st) -> In m (messages st1))
    /\ (forall v, r = Ok v ->
                  currentPageId st1
                  = pageAfter integrationData entries (currentPageId st)).
Proof.
  intros fd entries st st1 r Hall. revert st.
  induction Hall as [| e rest He _ IH]; intros st H; simpl in H.
  - inversion H; subst. auto.
  - simpl. destruct (negb (includes (pageIds fd) (entry_id e))).
    + inversion H; subst. auto.
    + rewrite He in H. unfold bind at 1 in H. unfold modify at 1 in H.
      destruct (bind_inv _ _ _ H) as [[e1 [H1 Hr]] | [u [s1 [H1 H']]]];
        clear H.
      * assert (G : grows (set_currentPageId (Some (entry_id e)) st) st1).
        { destruct (messaging e); [eapply grows_viaMessengerEvent; eauto |].
          inversion H1. }
        destruct G as [G _]. split; [exact G | subst r; discriminate].
      * assert (G : grows (set_currentPageId (Some (entry_id e)) st) s1).
        { destruct (messaging e); [eapply grows_viaMessengerEvent; eauto |].
          inversion H1; subst. apply grows_refl. }
        destruct G as [G P]. unfold bind at 1 in H'. unfold ret at 1 in H'.
        apply IH in H'. destruct H' as [G' P']. split.
        -- intros m Hm. apply G', G. exact Hm.
        -- intros v Hv. rewrite (P' v Hv), P. reflexivity.
Qed.

End MessengerRedelivery.

Section MessengerRedeliveryAgain.

Variables W1 W2 : World.
Variables token1 token2 : string.
Variable integration : Integration.

(** Messenger events that have been handled are all skipped afterwards. *)
Lemma viaMessengerEvent_again :
  forall events st st1,
    viaMessengerEvent W1 token1 integration events st = (st1, Ok tt) ->
    forall later,
      (forall m, In m (messages st1) -> In m (messages later)) ->
      viaMessengerEvent W2 token2 integration events later = (later, Ok tt).
Proof.
  intros events. induction events as [| e es IH]; intros st st1 H later Hsub.
  - reflexivity.
  - simpl in H. simpl.
    destruct (ev_message e) as [msg |] eqn:Emsg.
    + apply bind_Ok_inv in H. destruct H as [u [sa [Ha H]]].
      apply bind_Ok_inv in Ha. destruct Ha as [v [sb [Hb R]]].
      inversion R; subst sb; clear R.
      assert (Hstored : exists m, In m (messages sa)
                /\ matchMessage (messageIdSelector (mid msg)) m = true).
      { unfold getOrCreateConversationByMessenger in Hb. rewrite Emsg in Hb.
        apply bind_Ok_inv in Hb. destruct Hb as [saved [s0 [F Hb]]].
        inversion F; subst s0 saved; clear F.
        destruct (find _ (messages st)) as [m0 |] eqn:E0.
        - inversion Hb; subst. apply find_some in E0. eauto.
        - apply bind_Ok_inv in Hb. destruct Hb as [i [sc [Hc R]]].
          inversion R; subst sc; clear R.
          apply getOrCreateConversation_Ok in Hc.
          destruct Hc as [m [new [Hm [_ [Hfd _]]]]].
          exists m. split; [rewrite Hm; left; reflexivity |].
          apply matchMessage_messageId. rewrite Hfd. reflexivity. }
      destruct Hstored as [m [Hin Hmatch]].
      pose proof H as G. apply grows_viaMessengerEvent in G.
      destruct G as [G _].
      destruct (find_exists _ _ _ (Hsub m (G m Hin)) Hmatch) as [m' Hm'].
      unfold bind at 1. unfold bind at 1.
      unfold getOrCreateConversationByMessenger. rewrite Emsg.
      unfold bind at 1. unfold ConversationMessages_findOne, gets.
      rewrite Hm'. simpl. eapply IH; eauto.
    + unfold bind at 1 in H. unfold ret at 1 in H.
      unfold bind at 1. unfold ret at 1. eapply IH; eauto.
Qed.

Lemma startEntries_again :
  forall integrationData entries st st1 r,
    Forall (fun e => changes e = None) entries ->
    startEntries W1 token1 integration integrationData entries st
    = (st1, Ok r) ->
    forall later,
      (forall m, In m (messages st1) -> In m (messages later)) ->
      startEntries W2 token2 integration integrationData entries later
      = (set_currentPageId
           (pageAfter integrationData entries (currentPageId later)) later,
         Ok r).
Proof.
  intros fd entries st st1 r Hall. revert st.
  induction Hall as [| e rest He Hrest IH]; intros st H later Hsub;
    simpl in H; simpl.
  - inversion H; subst. rewrite set_currentPageId_same. reflexivity.
  - destruct (negb (includes (pageIds fd) (entry_id e))).
    + inversion H; subst. rewrite set_currentPageId_same. reflexivity.
    + rewrite He in *. unfold bind at 1 in H. unfold modify at 1 in H.
      apply bind_Ok_inv in H. destruct H as [u [s1 [H1 H]]].
      unfold bind at 1 in H. unfold ret at 1 in H.
      pose proof H as G.
      apply startEntries_messenger_only in G; [| exact Hrest].
      destruct G as [G _].
      unfold bind at 1. unfold modify at 1.
      assert (Hm : match messaging e with
                   | Some events =>
                       viaMessengerEvent W2 token2 integration events
                   | None => ret tt
                   end (set_currentPageId (Some (entry_id e)) later)
                   = (set_currentPageId (Some (entry_id e)) later, Ok tt)).
      { destruct (messaging e) as [events |]; [| reflexivity].
        destruct u. eapply viaMessengerEvent_again; [exact H1 |].
        intros m Hin. simpl. apply Hsub, G. exact Hin. }
      unfold bind at 1. rewrite Hm. unfold bind at 1. unfold ret at 1.
      rewrite (IH s1 H (set_currentPageId (Some (entry_id e)) later));
        [reflexivity |].
      intros m Hin. simpl. apply Hsub. exact Hin.
Qed.

(** X16: a delivery that carries messenger events only (no entry has
    [changes]) and has been handled successfully is a no-op when it is
    delivered again to the same integration, whatever the Graph API answers
    then: every event is skipped as already stored and the state after the
    second delivery is the state before it. *)
Theorem start_redelivery_of_messages :
  forall data st st1 r,
    Forall (fun e => changes e = None) (entry data) ->
    start W1 token1 integration data st = (st1, Ok r) ->
    start W2 token2 integration data st1 = (st1, Ok r).
Proof.
  intros data st st1 r Hall H. unfold start in *.
  destruct (i_facebookData integration) as [fd |]; [| discriminate].
  destruct (String.eqb (object data) "page"); [| inversion H; reflexivity].
  pose proof H as P.
  apply startEntries_messenger_only in P; [| exact Hall].
  destruct P as [_ P].
  rewrite (@startEntries_again fd (entry data) st st1 r Hall H st1
             (fun m Hm => Hm)).
  rewrite (P r eq_refl), pageAfter_idempotent, <- (P r eq_refl).
  rewrite set_currentPageId_same. reflexivity.
Qed.

End MessengerRedeliveryAgain.

Lemma start_redelivery_of_messages_witness :
  start Sample2.expired "ANOTHER-TOKEN" Sample.integration Sample2.chat
        Sample2.after_chat
  = (Sample2.after_chat, Ok Undefined).
Proof.
  assert (H : start Sample.world "USER-TOKEN" Sample.integration Sample2.chat
                    Sample.empty
              = (Sample2.after_chat, Ok Undefined))
    by (vm_compute; reflexivity).
  apply (@start_redelivery_of_messages Sample.world Sample2.expired
           "USER-TOKEN" "ANOTHER-TOKEN" Sample.integration Sample2.chat
           Sample.empty Sample2.after_chat Undefined).
  - repeat constructor.
  - exact H.
Defined.

(** ** Messenger message ids stay unique *)

Lemma same_messageIds_refl : forall st, same_messageIds st st.
Proof. intros st i. reflexivity. Qed.

Lemma same_messageIds_trans :
  forall a b c,
    same_messageIds a b -> same_messageIds b c -> same_messageIds a c.
Proof. intros a b c H1 H2 i. rewrite H2, H1. reflexivity. Qed.















Section MessageIds.

Variable W : World.
Variable userAccessToken : string.
Variable integration : Integration.












End MessageIds.



(** ** The webhook receiver *)

Section Receiver.

Variable W : World.
Variable Accounts_findOne : string -> option Account.




(** X19: an integration whose account is missing makes the receiver throw
    when its turn comes; the integrations listed after it are never
    handled, so the delivery is lost for them. *)
Theorem receiveWebhookResponse_stops_at_missing_account :
  forall before integration integrationData after data st,
    i_facebookData integration = Some integrationData ->
    Accounts_findOne (accountId integrationData) = None ->
    receiveWebhookResponse W Accounts_findOne
      (before ++ integration :: after) data st
    = receiveWebhookResponse W Accounts_findOne
        (before ++ [integration]) data st
    /\ forall st' r,
         receiveWebhookResponse W Accounts_findOne
           (before ++ integration :: after) data st = (st', r) ->
         exists e, r = Err e.
Proof.
  intros before integ fd after data st Hfd Hacc. revert st.
  induction before as [| b before IH]; intros st.
  - simpl. rewrite Hfd, Hacc. split; [reflexivity |].
    intros st' r H. inversion H. eauto.
  - cbn [app receiveWebhookResponse].
    destruct (i_facebookData b) as [bfd |];
      [| split; [reflexivity | intros st' r H; inversion H; eauto]].
    destruct (Accounts_findOne (accountId bfd)) as [account |];
      [| split; [reflexivity | intros st' r H; inversion H; eauto]].
    unfold bind, modify.
    destruct (start W (account_token account) b data
                    (set_currentPageId None st)) as [s1 [v | e]].
    + apply IH.
    + split; [reflexivity |]. intros st' r H. inversion H. eauto.
Qed.

End Receiver.


Lemma receiveWebhookResponse_stops_at_missing_account_witness :
  receiveWebhookResponse Sample.world Sample2.accounts
    [Sample2.orphan_integration; Sample.integration] Sample2.chat Sample.empty
  = (Sample.empty, Err "Could not find account").
Proof.
  destruct (@receiveWebhookResponse_stops_at_missing_account
              Sample.world Sample2.accounts [] Sample2.orphan_integration
              (mkFacebookIntegration ["page1"] "account9")
              [Sample.integration] Sample2.chat Sample.empty
              eq_refl eq_refl) as [H _].
  etransitivity; [exact H | reflexivity].
Defined.

(** ** The reconnection delay *)



(** ** Replies *)

(** X21: in a messenger reply an attachment replaces the text: whenever an
    attachment is given the message posted is the file message of its url,
    whatever the text; the text is posted only without an attachment, and
    an empty message when there is neither. *)
Theorem messengerPayload_attachment_wins :
  forall msg,
    (forall url, reply_attachment msg = Some url ->
                 messengerPayload msg = FileMessage url)
    /\ (reply_attachment msg = None ->
        messengerPayload msg
        = match reply_text msg with
          | Some text => if String.eqb text "" then EmptyMessage
                         else TextMessage text
          | None => EmptyMessage
          end).
Proof.
  intros msg. unfold messengerPayload. split.
  - intros url H. rewrite H. reflexivity.
  - intros H. rewrite H. destruct (reply_text msg) as [text |]; simpl.
    + destruct (String.eqb text ""); reflexivity.
    + reflexivity.
Qed.

Lemma messengerPayload_attachment_wins_witness :
  messengerPayload (mkFacebookReply (Some "see attached")
                                    (Some (Some "https://files/1.pdf")) None)
  = FileMessage (Some "https://files/1.pdf")
  /\ messengerPayload (mkFacebookReply (Some "hello") None None)
     = TextMessage "hello".
Proof.
  split.
  - exact (proj1 (messengerPayload_attachment_wins
                    (mkFacebookReply (Some "see attached")
                       (Some (Some "https://files/1.pdf")) None))
                 (Some "https://files/1.pdf") eq_refl).
  - exact (proj2 (messengerPayload_attachment_wins
                    (mkFacebookReply (Some "hello") None None)) eq_refl).
Defined.

Section Replies.

Variable W : World.
Variable graph_post : nat -> string -> ostring -> PostBody -> result PostResponse.
Variable Integrations_findOne : string -> option Integration.
Variable Accounts_findOne : string -> option Account.

(** X22: [facebookReply] refuses to reply, before any request and without
    touching the state, when the integration of the conversation is missing
    or has no [facebookData], when the conversation has no [facebookData],
    or when the account of the integration is missing. *)
Theorem facebookReply_refuses :
  forall conversation msg message rs,
    (match Integrations_findOne (c_integrationId conversation) with
     | None => True
     | Some integration =>
         match i_facebookData integration with
         | None => True
         | Some integrationData =>
             c_facebookData conversation = None
             \/ Accounts_findOne (accountId integrationData) = None
         end
     end) ->
    exists e,
      facebookReply W graph_post Integrations_findOne Accounts_findOne
                    conversation msg message rs
      = (rs, Err e).
Proof.
  intros conv msg message rs H. unfold facebookReply.
  destruct (Integrations_findOne (c_integrationId conv)) as [integ |];
    [| eexists; reflexivity].
  destruct (i_facebookData integ) as [ifd |]; [| eexists; reflexivity].
  destruct (c_facebookData conv) as [cfd |]; [| eexists; reflexivity].
  destruct H as [H | H]; [discriminate |].
  rewrite H. eexists. reflexivity.
Qed.

(** X23: a reply in a MESSENGER conversation, when both requests succeed,
    makes one request for the page token and one post to [me/messages],
    addressed to the sender stored on the conversation and signed with the
    page token; the id the post returns is recorded as [messageId] of the
    replying message, and no other message is touched. *)
Theorem facebookReply_messenger :
  forall conversation msg message rs integration integrationData facebookData
         account response res,
    Integrations_findOne (c_integrationId conversation) = Some integration ->
    i_facebookData integration = Some integrationData ->
    c_facebookData conversation = Some facebookData ->
    cf_kind facebookData = MESSENGER ->
    Accounts_findOne (accountId integrationData) = Some account ->
    graph_get W (length (requests (store rs)))
      (Some (String.append (template (cf_pageId facebookData) "undefined")
                           "/?fields=access_token"))
      (Some (RString (account_token account)))
    = Ok response ->
    graph_post (S (length (requests (store rs))) + length (posts rs))
      "me/messages" (access_token (fields response))
      (MessengerBody (cf_senderId facebookData) (messengerPayload msg))
    = Ok res ->
    exists rs',
      facebookReply W graph_post Integrations_findOne Accounts_findOne
                    conversation msg message rs
      = (rs', Ok tt)
      /\ posts rs'
         = mkPost "me/messages" (access_token (fields response))
             (MessengerBody (cf_senderId facebookData) (messengerPayload msg))
             :: posts rs
      /\ length (requests (store rs')) = S (length (requests (store rs)))
      /\ messages (store rs')
         = map (fun m => if Nat.eqb (m_id m) (m_id message)
                         then with_facebookData
                                (with_messageId (message_id res)) m
                         else m)
               (messages (store rs))
      /\ conversations (store rs') = conversations (store rs).
Proof.
  intros conv msg message rs integ ifd cfd account response res
         Hi Hifd Hcfd Hkind Hacc Hget Hpost.
  unfold facebookReply. rewrite Hi, Hifd, Hcfd, Hacc, Hkind.
  unfold bindR at 1. unfold liftR at 1. unfold graphRequest_get.
  rewrite Hget. unfold bindR at 1. unfold graphRequest_post.
  cbn [store posts requests add_request length].
  rewrite Hpost. eexists. split; [reflexivity |].
  repeat split.
Qed.

(** X24: a reply in a FEED conversation, when both requests succeed, posts
    one comment, under the comment replied to when a comment id is given
    and under the post of the conversation otherwise.  The [facebookData] of
    the replying message is replaced by the id of the new comment (with the
    parent id and the link when given), and the comment count of every post
    message of its conversation goes up by one; all other messages stay as
    they are. *)
Theorem facebookReply_feed :
  forall conversation msg message rs integration integrationData facebookData
         account response res,
    Integrations_findOne (c_integrationId conversation) = Some integration ->
    i_facebookData integration = Some integrationData ->
    c_facebookData conversation = Some facebookData ->
    cf_kind facebookData = FEED ->
    Accounts_findOne (accountId integrationData) = Some account ->
    graph_get W (length (requests (store rs)))
      (Some (String.append (template (cf_pageId facebookData) "undefined")
                           "/?fields=access_token"))
      (Some (RString (account_token account)))
    = Ok response ->
    let target :=
      if truthy (reply_commentId msg) then reply_commentId msg
      else cf_postId facebookData in
    let body :=
      CommentBody (if truthy (reply_text msg) then reply_text msg else None)
                  (reply_attachment msg) in
    graph_post (S (length (requests (store rs))) + length (posts rs))
      (String.append (template target "undefined") "/comments")
      (access_token (fields response)) body
    = Ok res ->
    exists rs',
      facebookReply W graph_post Integrations_findOne Accounts_findOne
                    conversation msg message rs
      = (rs', Ok tt)
      /\ posts rs'
         = mkPost (String.append (template target "undefined") "/comments")
                  (access_token (fields response)) body
             :: posts rs
      /\ messages (store rs')
         = map (fun m =>
                  if Nat.eqb (m_id m) (m_id message)
                  then with_facebookData
                         (fun _ => replyFacebookData msg res) m
                  else if matchMessage
                            (postsOfSelector (m_conversationId message)) m
                  then with_facebookData inc_commentCount m
                  else m)
               (messages (store rs)).
Proof.
  intros conv msg message rs integ ifd cfd account response res
         Hi Hifd Hcfd Hkind Hacc Hget target body Hpost.
  unfold facebookReply. rewrite Hi, Hifd, Hcfd, Hacc, Hkind.
  unfold bindR at 1. unfold liftR at 1. unfold graphRequest_get.
  rewrite Hget. unfold bindR at 1. unfold graphRequest_post.
  cbn [store posts requests add_request length].
  fold target. fold body. rewrite Hpost.
  eexists. split; [reflexivity |]. split; [reflexivity |].
  cbn [store messages set_messages add_request].
  rewrite map_map. apply map_ext. intros m.
  destruct (Nat.eqb (m_id m) (m_id message)); [| reflexivity].
  assert (E : isPost (replyFacebookData msg res) = false).
  { unfold replyFacebookData.
    destruct (truthy (reply_commentId msg)), (reply_attachment msg);
      reflexivity. }
  unfold matchMessage, postsOfSelector. simpl. rewrite E. simpl.
  rewrite andb_false_r. reflexivity.
Qed.

End Replies.

Lemma facebookReply_refuses_witness :
  exists e,
    facebookReply Sample.world Sample2.posted Sample2.integrations
                  Sample2.accounts Sample2.lost_conversation
                  Sample2.with_file Sample2.outgoing Sample2.replying
    = (Sample2.replying, Err e).
Proof.
  exact (@facebookReply_refuses Sample.world Sample2.posted
           Sample2.integrations Sample2.accounts Sample2.lost_conversation
           Sample2.with_file Sample2.outgoing Sample2.replying I).
Defined.

Lemma facebookReply_messenger_witness :
  exists rs',
    facebookReply Sample.world Sample2.posted Sample2.integrations
                  Sample2.accounts (Sample.alice_conversation 1)
                  Sample2.with_file Sample2.outgoing Sample2.replying
    = (rs', Ok tt)
    /\ posts rs'
       = [mkPost "me/messages" (Some "PAGE-TOKEN")
            (MessengerBody (Some "100")
                           (FileMessage (Some "https://files/1.pdf")))]
    /\ map (fun m => messageId (m_facebookData m)) (messages (store rs'))
       = [Some "m3"; Some "m1"].
Proof.
  destruct (@facebookReply_messenger Sample.world Sample2.posted
              Sample2.integrations Sample2.accounts
              (Sample.alice_conversation 1) Sample2.with_file
              Sample2.outgoing Sample2.replying Sample.integration
              (mkFacebookIntegration ["page1"] "account1")
              (mkConvFacebook MESSENGER (Some "100") (Some "Alice")
                              (Some "page1") None (Some "page1"))
              (mkAccount "USER-TOKEN") Sample.token_response
              (mkPostResponse (Some "m3") None)
              eq_refl eq_refl eq_refl eq_refl eq_refl eq_refl eq_refl)
    as [rs' [H [Hp [_ [Hm _]]]]].
  exists rs'. split; [exact H |]. split; [exact Hp |].
  rewrite Hm. reflexivity.
Defined.

Lemma facebookReply_feed_witness :
  exists rs',
    facebookReply Sample.world Sample2.posted Sample2.integrations
                  Sample2.accounts Sample.post_conversation
                  Sample2.to_comment Sample2.outgoing Sample2.feed_replying
    = (rs', Ok tt)
    /\ posts rs'
       = [mkPost "c1/comments" (Some "PAGE-TOKEN")
                 (CommentBody (Some "welcome") None)]
    /\ map (fun m => (commentId (m_facebookData m),
                      parentId (m_facebookData m),
                      commentCount (m_facebookData m)))
           (messages (store rs'))
       = [(Some "c3", Some "c1", None); (Some "c1", None, None);
          (None, None, Some 2)].
Proof.
  destruct (@facebookReply_feed Sample.world Sample2.posted
              Sample2.integrations Sample2.accounts
              Sample.post_conversation Sample2.to_comment
              Sample2.outgoing Sample2.feed_replying Sample.integration
              (mkFacebookIntegration ["page1"] "account1")
              (mkConvFacebook FEED (Some "200") (Some "Bob") None (Some "p1")
                              (Some "page1"))
              (mkAccount "USER-TOKEN") Sample.token_response
              (mkPostResponse None (Some "c3"))
              eq_refl eq_refl eq_refl eq_refl eq_refl eq_refl eq_refl)
    as [rs' [H [Hp Hm]]].
  exists rs'. split; [exact H |]. split; [exact Hp |].
  rewrite Hm. reflexivity.
Defined.

(** ** Importing the comments of a post *)

Section Importing.

Variable W : World.
Variable fetchComments :
  nat -> ostring -> Response -> option nat -> result (list FbObject).

Lemma storeComments_stores :
  forall token conversation comments st st',
    storeComments W token conversation comments st = (st', Ok tt) ->
    exists new,
      messages st' = new ++ messages st
      /\ map imported new = rev (map (importedAs conversation) comments)
      /\ published st' = published st
      /\ map c_content (conversations st') = map c_content (conversations st).
Proof.
  intros token conv comments. induction comments as [| c rest IH];
    intros st st' H.
  - inversion H; subst. exists (@nil Message). repeat split.
  - cbn [storeComments] in H.
    destruct (from c) as [author |]; [| discriminate].
    apply bind_Ok_inv in H. destruct H as [customer [s1 [Hc H]]].
    apply bind_Ok_inv in H. destruct H as [m [s2 [Hm H]]].
    pose proof (@quiet_getOrCreateCustomer W _ _ _ _ _ _ Hc)
      as [Hq1 [Hq2 _]].
    pose proof (@unpublished_getOrCreateCustomer W _ _ _ _ _ _ Hc) as Hq3.
    unfold unpublished in Hq3.
    unfold ConversationMessages_createMessage in Hm. inversion Hm; subst s2 m.
    clear Hm. apply IH in H. destruct H as [new [H1 [H2 [H3 H4]]]].
    exists (new ++ [mkMessage (nextId s1) (c_id conv) (cu_id customer)
                      (Some (orDefault (message c) "...")) []
                      (generateCommentParams c) false]).
    split; [| split; [| split]].
    + rewrite H1. cbn [messages bump_nextId set_conversations set_messages].
      rewrite Hq1, <- app_assoc. reflexivity.
    + rewrite map_app, H2. reflexivity.
    + rewrite H3. cbn [published bump_nextId set_conversations set_messages].
      exact Hq3.
    + rewrite H4.
      cbn [conversations bump_nextId set_conversations set_messages].
      rewrite Hq2, map_map. apply map_ext. intros x.
      destruct (Nat.eqb (c_id x) (c_id conv)); reflexivity.
Qed.

(** X25: [getPostComments], when it succeeds, stores one message for every
    comment it fetched, in the order fetched, without looking for a message
    already stored for the comment: each carries the comment's text (or
    "..."), the comment's [facebookData] and the conversation it was given.
    Unlike [createMessage] it notifies no one and leaves the content of
    every conversation as it was. *)
Theorem getPostComments_stores_every_comment :
  forall post token limit conversation comments st st',
    fetchComments (length (requests st)) post token limit = Ok comments ->
    getPostComments W fetchComments post token limit conversation st
    = (st', Ok tt) ->
    exists new,
      messages st' = new ++ messages st
      /\ map imported new = rev (map (importedAs conversation) comments)
      /\ published st' = published st
      /\ map c_content (conversations st') = map c_content (conversations st).
Proof.
  intros post token limit conv comments st st' Hf H.
  unfold getPostComments in H. rewrite Hf in H.
  eapply storeComments_stores. exact H.
Qed.

End Importing.

Lemma getPostComments_stores_every_comment_witness :
  exists st' new,
    getPostComments Sample.world Sample2.fetching (Some "p1")
                    Sample.token_response None Sample.post_conversation
                    Sample.thread
    = (st', Ok tt)
    /\ messages st' = new ++ messages Sample.thread
    /\ map (fun m => (commentId (m_facebookData m), m_content m)) new
       = [(Some "c1", Some "..."); (Some "c1", Some "a comment")].
Proof.
  exists Sample2.after_fetch.
  assert (H : getPostComments Sample.world Sample2.fetching (Some "p1")
                Sample.token_response None Sample.post_conversation
                Sample.thread
              = (Sample2.after_fetch, Ok tt))
    by (vm_compute; reflexivity).
  destruct (@getPostComments_stores_every_comment Sample.world
              Sample2.fetching (Some "p1") Sample.token_response None
              Sample.post_conversation Sample2.fetched_twice Sample.thread
              Sample2.after_fetch eq_refl H) as [new [H1 [H2 _]]].
  exists new. split; [exact H |]. split; [exact H1 |].
  change (fun m : Message => (commentId (m_facebookData m), m_content m))
    with (fun m : Message =>
            (fun i : nat * ostring * MsgFacebook * bool =>
               (commentId (snd (fst i)), snd (fst (fst i)))) (imported m)).
  rewrite <- (map_map imported
                (fun i : nat * ostring * MsgFacebook * bool =>
                   (commentId (snd (fst i)), snd (fst (fst i))))).
  rewrite H2. reflexivity.
Defined.

(** ** Redelivery *)


